(** * webgraphrag-flask: the request handler of [app.py]

    A shallow embedding of [app.py]: the two Flask routes ([index], [ask]),
    the registry loader ([load_datasets]) and the subprocess wrapper
    ([graphrag_cli_query]), together with the fragments of the Python
    runtime they rest on (text, parsed JSON values, dictionaries in insertion
    order, [pathlib] joining on a POSIX host, exceptions). *)

From Stdlib Require Import List ZArith NArith Bool String Ascii Lia SpecFloat.
Import ListNotations.

Set Implicit Arguments.
Local Set Warnings "-register-all".

(** ** Python text

    A Python [str] is a sequence of Unicode code points. *)

Definition pystr := list N.

Definition lit (s : string) : pystr :=
  map N_of_ascii (list_ascii_of_string s).
Arguments lit : simpl never.

Definition pystr_eq_dec : forall a b : pystr, {a = b} + {a <> b} :=
  list_eq_dec N.eq_dec.

(** [str.isspace] for a single code point (CPython's
    [_PyUnicode_IsWhitespace]). *)
Definition isspace (c : N) : bool :=
  ((9 <=? c) && (c <=? 13) || (28 <=? c) && (c <=? 32)
   || (c =? 133) || (c =? 160) || (c =? 5760)
   || (8192 <=? c) && (c <=? 8202)
   || (c =? 8232) || (c =? 8233) || (c =? 8239) || (c =? 8287)
   || (c =? 12288))%N.

Fixpoint lstrip (s : pystr) : pystr :=
  match s with
  | c :: s' => if isspace c then lstrip s' else s
  | [] => []
  end.

Definition rstrip (s : pystr) : pystr := rev (lstrip (rev s)).

(** [s.strip()] *)
Definition strip (s : pystr) : pystr := rstrip (lstrip s).

(** [s[:n]] for a non-negative [n]. *)
Definition slice_to (n : nat) (s : pystr) : pystr := firstn n s.

(** ** Values produced by [json.load] *)

Inductive pyval : Type :=
| PyNone
| PyBool (b : bool)
| PyInt (z : Z)
| PyFloat (f : spec_float)
| PyStr (s : pystr)
| PyList (l : list pyval)
| PyDict (d : list (pystr * pyval)).

(** ** Exceptions *)

Inductive exn : Type :=
| OSError
| UnicodeDecodeError
| JSONDecodeError (msg : pystr)
| KeyError (k : pyval)
| TypeError
| ValueError
| RecursionError
| CalledProcessError (returncode : Z) (cmd : list pystr)
                     (output stderr : pystr).

Inductive outcome (A : Type) : Type :=
| Ok (a : A)
| Raise (e : exn).
Arguments Raise {A} e.

(** ** Hashing and equality of dictionary keys

    Two objects are the same dictionary key when they are equal and hash
    alike: numbers by their value ([True == 1 == 1.0]), text by content.
    [py_key] sends a hashable object to a canonical representative and an
    unhashable one (a list, a dict) to [None]. *)

Inductive hkey : Type :=
| KNone
| KNum (m e : Z)          (* m * 2^e, with m odd, or m = 0 and e = 0 *)
| KInf (negative : bool)
| KNaN
| KStr (s : pystr).

Fixpoint odd_part (p : positive) (e : Z) : positive * Z :=
  match p with
  | xO q => odd_part q (e + 1)
  | _ => (p, e)
  end.

Definition dyadic (z e : Z) : hkey :=
  match z with
  | Z0 => KNum 0 0
  | Zpos p => let (q, e') := odd_part p e in KNum (Zpos q) e'
  | Zneg p => let (q, e') := odd_part p e in KNum (Zneg q) e'
  end.

Definition py_key (v : pyval) : option hkey :=
  match v with
  | PyNone => Some KNone
  | PyBool b => Some (dyadic (Z.b2z b) 0)
  | PyInt z => Some (dyadic z 0)
  | PyFloat (S754_zero _) => Some (KNum 0 0)
  | PyFloat (S754_infinity s) => Some (KInf s)
  | PyFloat S754_nan => Some KNaN
  | PyFloat (S754_finite s m e) =>
      Some (dyadic (if s then Zneg m else Zpos m) e)
  | PyStr s => Some (KStr s)
  | PyList _ | PyDict _ => None
  end.

Definition hkey_eq_dec : forall a b : hkey, {a = b} + {a <> b}.
Proof.
  decide equality; auto using Z.eq_dec, Bool.bool_dec, pystr_eq_dec.
Defined.

(** ** Dictionaries, in insertion order *)

Definition pydict := list (hkey * pyval).

(** [d[k] = v]: an existing key keeps its position and takes the new value;
    a new key goes to the end. *)
Fixpoint dict_set (d : pydict) (k : hkey) (v : pyval) : pydict :=
  match d with
  | [] => [(k, v)]
  | (k', v') :: d' =>
      if hkey_eq_dec k' k then (k', v) :: d'
      else (k', v') :: dict_set d' k v
  end.

Fixpoint dict_get (d : pydict) (k : hkey) : option pyval :=
  match d with
  | [] => None
  | (k', v') :: d' => if hkey_eq_dec k' k then Some v' else dict_get d' k
  end.

(** [k in d] *)
Definition dict_mem (d : pydict) (k : hkey) : bool :=
  match dict_get d k with Some _ => true | None => false end.

(** [d.values()] *)
Definition dict_values (d : pydict) : list pyval := map snd d.

(** ** Subscripting and iterating parsed values *)

Fixpoint assoc (k : pystr) (d : list (pystr * pyval)) : option pyval :=
  match d with
  | [] => None
  | (k', v) :: d' => if pystr_eq_dec k' k then Some v else assoc k d'
  end.

(** [v[k]] for a text subscript [k]: only a dict accepts it. *)
Definition getitem_str (v : pyval) (k : pystr) : outcome pyval :=
  match v with
  | PyDict d =>
      match assoc k d with
      | Some x => Ok x
      | None => Raise (KeyError (PyStr k))
      end
  | _ => Raise TypeError
  end.

(** The elements a [for] loop draws from [v]. *)
Definition py_iter (v : pyval) : outcome (list pyval) :=
  match v with
  | PyList l => Ok l
  | PyDict d => Ok (map (fun kv => PyStr (fst kv)) d)
  | PyStr s => Ok (map (fun c => PyStr [c]) s)
  | _ => Raise TypeError
  end.

(** ** [pathlib] on a POSIX host

    A pure path is its root ([""], ["/"] or ["//"]) and its components. *)

Record path : Type := mkpath { root : pystr; parts : list pystr }.

Definition sep : pystr := lit "/".

Definition pystr_eqb (a b : pystr) : bool :=
  if pystr_eq_dec a b then true else false.

Fixpoint split_on (c : N) (s : pystr) : list pystr :=
  match s with
  | [] => [[]]
  | x :: s' =>
      if (x =? c)%N then [] :: split_on c s'
      else match split_on c s' with
           | w :: ws => (x :: w) :: ws
           | [] => [[x]]
           end
  end.

(** [posixpath.splitroot], without the drive (always empty): the root and
    what follows it. *)
Definition splitroot (p : pystr) : pystr * pystr :=
  if negb (pystr_eqb (firstn 1 p) sep) then ([], p)
  else if negb (pystr_eqb (firstn 1 (skipn 1 p)) sep)
          || pystr_eqb (firstn 1 (skipn 2 p)) sep
       then (sep, skipn 1 p)
       else (firstn 2 p, skipn 2 p).

(** [Path(s)]: empty components and ["."] are dropped. *)
Definition Path (s : pystr) : path :=
  let (r, rel) := splitroot s in
  mkpath r (filter (fun x => negb (pystr_eqb x []) && negb (pystr_eqb x (lit ".")))
                   (split_on 47 rel)).

Definition is_absolute (p : path) : bool := negb (pystr_eqb (root p) []).

(** Joining two paths: a rooted right operand replaces the left one. *)
Definition joinpath (a b : path) : path :=
  if is_absolute b then b
  else mkpath (root a) (parts a ++ parts b).

(** [a / key]: [key] must be text (or a path; JSON has none). *)
Definition path_truediv (a : path) (key : pyval) : outcome path :=
  match key with
  | PyStr s => Ok (joinpath a (Path s))
  | _ => Raise TypeError
  end.

Fixpoint join_with (s : pystr) (l : list pystr) : pystr :=
  match l with
  | [] => []
  | [x] => x
  | x :: l' => x ++ s ++ join_with s l'
  end.

(** [str(p)] *)
Definition path_str (p : path) : pystr :=
  match root p ++ join_with sep (parts p) with
  | [] => lit "."
  | s => s
  end.

(** ** Effects: what a request does besides answering *)

Inductive event : Type :=
| EvPrint (line : pystr)                 (* print(...) *)
| EvFlash (message category : pystr)     (* flask.flash *)
| EvRun (argv : list pystr).             (* subprocess.run, no shell *)

(** A computation leaves a trace of events and returns or raises. *)
Definition M (A : Type) : Type := (list event * outcome A)%type.

Definition ret {A} (a : A) : M A := ([], Ok a).
Definition raise {A} (e : exn) : M A := ([], Raise e).
Definition emit (ev : event) : M unit := ([ev], Ok tt).
Definition lift {A} (o : outcome A) : M A := ([], o).

Definition bind {A B} (c : M A) (k : A -> M B) : M B :=
  match c with
  | (t, Ok a) => let (t', r) := k a in (t ++ t', r)
  | (t, Raise e) => (t, Raise e)
  end.

(** [try: c  except <h matches>: handler] *)
Definition try_except {A} (c : M A) (h : exn -> option (M A)) : M A :=
  match c with
  | (t, Raise e) =>
      match h e with
      | Some k => let (t', r) := k in (t ++ t', r)
      | None => (t, Raise e)
      end
  | done => done
  end.

Notation "x <- c ;; k" := (bind c (fun x => k))
  (at level 61, c at next level, right associativity).
Notation "c ;;; k" := (bind c (fun _ => k))
  (at level 61, right associativity).

Definition trace {A} (c : M A) : list event := fst c.
Definition result {A} (c : M A) : outcome A := snd c.

(** ** The world a request runs in *)

(** Why [json.load] can raise on text that is JSON: an integer with more
    digits than the interpreter converts ([ValueError]), or nesting deeper
    than its recursion limit ([RecursionError]). *)
Inductive load_failure : Type :=
| IntegerTooLong
| NestingTooDeep.

Definition load_failure_exn (why : load_failure) : exn :=
  match why with
  | IntegerTooLong => ValueError
  | NestingTooDeep => RecursionError
  end.

(** What [DATA_ROOT / "listing.json"] is when a request reads it. *)
Inductive listing_file : Type :=
| Missing                    (* no such file *)
| Unreadable                 (* it exists; opening it raises OSError *)
| Undecodable                (* its bytes are not UTF-8 *)
| Malformed (msg : pystr)    (* text that is not JSON; [msg] is str(exc) *)
| WellFormed (v : pyval)     (* JSON text that [json.load] parses to [v] *)
| Unloadable (why : load_failure).
                             (* JSON text on which [json.load] raises *)

(** What [subprocess.run(cmd, capture_output=True, text=True)] meets: the
    child ran, its output was captured as text and it exited with a code;
    or the call itself raised (the interpreter could not be started, an
    argument held a NUL, a captured stream was not text). *)
Inductive proc_outcome : Type :=
| Exited (returncode : Z) (stdout stderr : pystr)
| Failed (e : exn).

Record world : Type := mkenv {
  listing : listing_file;
  graphrag : list pystr -> proc_outcome;
  script_name : pystr        (* WSGI SCRIPT_NAME: where the app is mounted *)
}.

(** The world of an application served at the root of its host. *)
Definition mkworld (f : listing_file) (g : list pystr -> proc_outcome) : world :=
  mkenv f g [].

(** [request.form]: a multi-dict; [get] answers with the first value. *)
Definition multidict := list (pystr * pystr).

Fixpoint form_get (form : multidict) (name : pystr) : option pystr :=
  match form with
  | [] => None
  | (k, v) :: form' => if pystr_eq_dec k name then Some v else form_get form' name
  end.

Definition form_get_default (form : multidict) (name default : pystr) : pystr :=
  match form_get form name with
  | Some v => v
  | None => default
  end.

(** A form value as an object: an absent field is [None]. *)
Definition form_obj (v : option pystr) : pyval :=
  match v with
  | Some s => PyStr s
  | None => PyNone
  end.

Definition form_key (v : option pystr) : hkey :=
  match v with
  | Some s => KStr s
  | None => KNone
  end.

(** What a view function hands back to Flask. *)
Inductive response : Type :=
| Rendered (template : pystr) (context : list (string * pyval))
| Redirect (location : pystr).

Fixpoint kwarg (name : string) (ctx : list (string * pyval)) : option pyval :=
  match ctx with
  | [] => None
  | (n, v) :: ctx' => if String.eqb n name then Some v else kwarg name ctx'
  end.

Definition print (line : pystr) : M unit := emit (EvPrint line).
Definition flash (message category : pystr) : M unit :=
  emit (EvFlash message category).

(** [url_for("index")] inside a request: the URL adapter puts the route
    ["/"] of [index] after the script name taken without its final
    slashes. *)
Fixpoint drop_leading (c : N) (s : pystr) : pystr :=
  match s with
  | x :: s' => if (x =? c)%N then drop_leading c s' else s
  | [] => []
  end.

(** [s.rstrip("/")] *)
Definition rstrip_sep (s : pystr) : pystr := rev (drop_leading 47 (rev s)).

Definition url_for_index (script_name : pystr) : pystr :=
  rstrip_sep script_name ++ lit "/".

(** [subprocess.run(cmd, capture_output=True, text=True, check=True)],
    returning the captured standard output. *)
Definition subprocess_run_checked (w : world) (cmd : list pystr) : M pystr :=
  emit (EvRun cmd) ;;;
  match graphrag w cmd with
  | Exited rc out err =>
      if (rc =? 0)%Z then ret out
      else raise (CalledProcessError rc cmd out err)
  | Failed e => raise e
  end.

(** [listing.exists()] *)
Definition listing_exists (f : listing_file) : bool :=
  match f with
  | Missing => false
  | _ => true
  end.

(** [with listing.open(encoding="utf-8") as f: json.load(f)] *)
Definition open_json_load (f : listing_file) : outcome pyval :=
  match f with
  | Missing | Unreadable => Raise OSError
  | Undecodable => Raise UnicodeDecodeError
  | Malformed msg => Raise (JSONDecodeError msg)
  | WellFormed v => Ok v
  | Unloadable why => Raise (load_failure_exn why)
  end.

(** ** The program *)

Section App.

(** Module-level configuration, fixed when the process starts:
    [DATA_ROOT] (resolved) and [sys.executable]. *)
Variable DATA_ROOT : path.
Variable sys_executable : pystr.

(** [graphrag_cli_query(dataset_path, question, method="global")];
    [method = None] stands for a call that leaves the argument out. *)
Definition graphrag_cli_query (w : world) (dataset_path : path)
    (question : pystr) (method : option pystr) : M pystr :=
  let method := match method with Some m => m | None => lit "global" end in
  let cmd :=
    [ sys_executable; lit "-m"; lit "graphrag"; lit "query";
      lit "--root"; path_str dataset_path;
      lit "--method"; method;
      lit "--query"; question ] in
  stdout <- subprocess_run_checked w cmd ;;
  ret (strip stdout).

(** [load_datasets()] *)
Definition load_datasets (w : world) : M pyval :=
  if negb (listing_exists (listing w)) then
    print (lit "[load_datasets] listing.json not found") ;;;
    ret (PyList [])
  else
    try_except (lift (open_json_load (listing w)))
      (fun exc =>
         match exc with
         | JSONDecodeError msg =>
             Some (print (lit "[load_datasets] Invalid JSON: " ++ msg) ;;;
                   ret (PyList []))
         | _ => None
         end).

(** [GET /] *)
Definition index (w : world) : M response :=
  datasets <- load_datasets w ;;
  ret (Rendered (lit "index.html") [("datasets"%string, datasets)]).

(** [{d["key"]: d for d in ds}], continued from [acc]. *)
Fixpoint index_by_key (ds : list pyval) (acc : pydict) : outcome pydict :=
  match ds with
  | [] => Ok acc
  | d :: ds' =>
      match getitem_str d (lit "key") with
      | Raise e => Raise e
      | Ok k =>
          match py_key k with
          | None => Raise TypeError          (* unhashable *)
          | Some hk => index_by_key ds' (dict_set acc hk d)
          end
      end
  end.

(** [datasets_dict = {d["key"]: d for d in load_datasets()}] *)
Definition datasets_dict (w : world) : M pydict :=
  loaded <- load_datasets w ;;
  ds <- lift (py_iter loaded) ;;
  lift (index_by_key ds []).

(** [datasets_dict[ds_key]] *)
Definition dict_getitem (d : pydict) (k : option pystr) : outcome pyval :=
  match dict_get d (form_key k) with
  | Some v => Ok v
  | None => Raise (KeyError (form_obj k))
  end.

Definition failure_text (stderr : pystr) : pystr :=
  lit "GraphRAG query failed:" ++ [10%N] ++ slice_to 500 stderr ++ lit "...".

(** [POST /ask] *)
Definition ask (w : world) (form : multidict) : M response :=
  let question := strip (form_get_default form (lit "question") []) in
  let ds_key := form_get form (lit "dataset") in
  let method := form_get_default form (lit "method") (lit "global") in
  dd <- datasets_dict w ;;
  if pystr_eqb question [] || negb (dict_mem dd (form_key ds_key)) then
    flash (lit "Please enter a question and choose a dataset.") (lit "danger") ;;;
    ret (Redirect (url_for_index (script_name w)))
  else
    d <- lift (dict_getitem dd ds_key) ;;
    p <- lift (getitem_str d (lit "path")) ;;
    dataset_path <- lift (path_truediv DATA_ROOT p) ;;
    answer <-
      try_except (graphrag_cli_query w dataset_path question (Some method))
        (fun e =>
           match e with
           | CalledProcessError _ _ _ stderr => Some (ret (failure_text stderr))
           | _ => None
           end) ;;
    ret (Rendered (lit "index.html")
           [ ("datasets"%string, PyList (dict_values dd));
             ("answer"%string, PyStr answer);
             ("ask"%string, PyStr question);
             ("chosen"%string, form_obj ds_key);
             ("method"%string, PyStr method) ]).

End App.

(** The page [ask] renders once it has an answer. *)
Definition answer_page (dd : pydict) (answer question : pystr)
    (ds_key : option pystr) (method : pystr) : response :=
  Rendered (lit "index.html")
    [ ("datasets"%string, PyList (dict_values dd));
      ("answer"%string, PyStr answer);
      ("ask"%string, PyStr question);
      ("chosen"%string, form_obj ds_key);
      ("method"%string, PyStr method) ].

(** The argument vector of [graphrag_cli_query]. *)
Definition argv_of (exe root_arg method question : pystr) : list pystr :=
  [ exe; lit "-m"; lit "graphrag"; lit "query";
    lit "--root"; root_arg; lit "--method"; method; lit "--query"; question ].

(** The fields [ask] reads from the form. *)
Definition question_of (form : multidict) : pystr :=
  strip (form_get_default form (lit "question") []).
Definition ds_key_of (form : multidict) : option pystr :=
  form_get form (lit "dataset").
Definition method_of (form : multidict) : pystr :=
  form_get_default form (lit "method") (lit "global").

(** No subprocess was started along a trace. *)
Definition no_subprocess (t : list event) : Prop :=
  forall argv, ~ In (EvRun argv) t.

(** The key a registry entry is filed under, when it has a hashable one. *)
Definition key_of (d : pyval) : option hkey :=
  match getitem_str d (lit "key") with
  | Ok k => py_key k
  | Raise _ => None
  end.




(** What the handler does after a subprocess call that met [o]. *)
Definition after_run (dd : pydict) (form : multidict) (o : proc_outcome)
  : outcome response :=
  let page answer :=
    Ok (answer_page dd answer (question_of form) (ds_key_of form) (method_of form)) in
  match o with
  | Exited rc out err =>
      if (rc =? 0)%Z then page (strip out) else page (failure_text err)
  | Failed (CalledProcessError _ _ _ err) => page (failure_text err)
  | Failed e => Raise e
  end.

(** The three ways a POST request can go. *)
Inductive ask_case (DATA_ROOT : path) (sys_executable : pystr) (w : world)
    (form : multidict) : Prop :=
| AskRaises (e : exn)
    (Hrun : ask DATA_ROOT sys_executable w form
            = (trace (datasets_dict w), Raise e))
| AskRejects (dd : pydict)
    (Hdd : result (datasets_dict w) = Ok dd)
    (Hbad : question_of form = []
            \/ dict_mem dd (form_key (ds_key_of form)) = false)
    (Hrun : ask DATA_ROOT sys_executable w form
            = (trace (datasets_dict w)
                 ++ [EvFlash (lit "Please enter a question and choose a dataset.")
                             (lit "danger")],
               Ok (Redirect (url_for_index (script_name w)))))
| AskQueries (dd : pydict) (d : pyval) (p : pystr)
    (Hdd : result (datasets_dict w) = Ok dd)
    (Hq : question_of form <> [])
    (Hd : dict_get dd (form_key (ds_key_of form)) = Some d)
    (Hp : getitem_str d (lit "path") = Ok (PyStr p))
    (Hrun : let cmd := argv_of sys_executable
                         (path_str (joinpath DATA_ROOT (Path p)))
                         (method_of form) (question_of form) in
            ask DATA_ROOT sys_executable w form
            = (trace (datasets_dict w) ++ [EvRun cmd],
               after_run dd form (graphrag w cmd))).

(** A component that survives parsing: not empty, not ["."], no slash. *)
Definition component (x : pystr) : Prop :=
  x <> [] /\ x <> lit "." /\ ~ In 47%N x.

(** ** Example inputs *)

Definition data_root : path := Path (lit "/srv/graphrag").
Definition python : pystr := lit "/usr/bin/python3".

Definition descriptor (key path_text : string) : pyval :=
  PyDict [ (lit "key", PyStr (lit key)); (lit "path", PyStr (lit path_text)) ].

Definition engine_answers (_ : list pystr) : proc_outcome :=
  Exited 0 (lit "  Paris is the capital.  " ++ [10%N]) [].

Definition long_stderr : pystr := repeat 120%N 600.

Definition engine_breaks (_ : list pystr) : proc_outcome :=
  Exited 1 [] long_stderr.

Definition listing_alpha : listing_file :=
  WellFormed (PyList [descriptor "alpha" "alpha_data"]).

Definition form_alpha_local : multidict :=
  [ (lit "question", lit "What is X?"); (lit "dataset", lit "alpha");
    (lit "method", lit "local") ].

Definition form_alpha : multidict :=
  [ (lit "question", lit " What is X? "); (lit "dataset", lit "alpha") ].

Definition form_blank : multidict :=
  [ (lit "question", lit "   "); (lit "dataset", lit "alpha") ].

(** A listing whose only entry has no [key]. *)
Definition listing_keyless : listing_file :=
  WellFormed (PyList [PyDict [(lit "path", PyStr (lit "alpha_data"))]]).


(** Two entries under one key, and one that points outside the data root. *)
Definition listing_twice : listing_file :=
  WellFormed (PyList [ descriptor "alpha" "old_data";
                       descriptor "beta" "beta_data";
                       descriptor "alpha" "new_data" ]).

Definition listing_etc : listing_file :=
  WellFormed (PyList [descriptor "alpha" "/etc/ssl"]).

(** ** Further vocabulary *)

Definition is_run (ev : event) : bool :=
  match ev with EvRun _ => true | _ => false end.

Definition is_flash (ev : event) : bool :=
  match ev with EvFlash _ _ => true | _ => false end.


(** What [d["key"]] as a dictionary key raises when [d] has no hashable
    key. *)
Definition key_error (d : pyval) : exn :=
  match getitem_str d (lit "key") with
  | Raise e => e
  | Ok _ => TypeError
  end.

(** The keyword arguments of the page [ask] renders. *)
Definition page_context (dd : pydict) (answer : pystr) (form : multidict)
  : list (string * pyval) :=
  [ ("datasets"%string, PyList (dict_values dd));
    ("answer"%string, PyStr answer);
    ("ask"%string, PyStr (question_of form));
    ("chosen"%string, form_obj (ds_key_of form));
    ("method"%string, PyStr (method_of form)) ].

Definition warning : event :=
  EvFlash (lit "Please enter a question and choose a dataset.") (lit "danger").

(** More example inputs. *)
Definition engine_unavailable (_ : list pystr) : proc_outcome := Failed OSError.

Definition listing_dotdot : listing_file :=
  WellFormed (PyList [descriptor "alpha" "../secrets"]).

Definition listing_mixed : listing_file :=
  WellFormed (PyList [ descriptor "alpha" "alpha_data";
                       PyDict [(lit "key", PyInt 7); (lit "path", PyStr (lit "n"))];
                       descriptor "beta" "beta_data" ]).

Definition listing_two : listing_file :=
  WellFormed (PyList [ descriptor "alpha" "alpha_data";
                       descriptor "beta" "beta_data" ]).

(** A listing written as an object keyed by dataset name, not as an
    array. *)
Definition listing_object : listing_file :=
  WellFormed (PyDict [(lit "alpha", PyDict [(lit "path", PyStr (lit "alpha_data"))])]).

Definition form_spaces : multidict :=
  [ (lit "question", [32%N; 9%N; 10%N; 160%N; 12288%N]);
    (lit "dataset", lit "alpha") ].

(** A question with a NUL character in it, and an engine on a host where
    an argument with a NUL cannot be passed to a process. *)
Definition question_nul : pystr := lit "a" ++ [0%N] ++ lit "b".

Definition engine_posix (argv : list pystr) : proc_outcome :=
  if existsb (existsb (N.eqb 0)) argv then Failed ValueError
  else Exited 0 (lit "ok") [].

(** * Properties *)

(** ** The monad *)

Lemma bind_ok {A B} (t : list event) (a : A) (k : A -> M B) :
  bind (t, Ok a) k = (t ++ trace (k a), result (k a)).
Proof. unfold bind, trace, result. now destruct (k a). Qed.

Lemma bind_lift_ok {A B} (a : A) (k : A -> M B) :
  bind (lift (Ok a)) k = k a.
Proof. unfold lift. rewrite bind_ok. unfold trace, result. now destruct (k a). Qed.

Lemma eta_M {A} (c : M A) : c = (trace c, result c).
Proof. now destruct c. Qed.

(** ** The registry loader *)

Lemma load_datasets_trace_prints (w : world) (ev : event) :
  In ev (trace (load_datasets w)) -> exists line, ev = EvPrint line.
Proof.
  unfold load_datasets.
  destruct (listing w) as [ | | | msg | v | why]; try destruct why; cbn;
    intros H; repeat (destruct H as [H | H]; [eauto | ]); contradiction.
Qed.

Lemma load_datasets_no_subprocess (w : world) :
  no_subprocess (trace (load_datasets w)).
Proof.
  intros argv H. apply load_datasets_trace_prints in H.
  destruct H as [line H]. discriminate.
Qed.

Lemma datasets_dict_trace (w : world) :
  trace (datasets_dict w) = trace (load_datasets w).
Proof.
  unfold datasets_dict.
  destruct (load_datasets w) as [t [loaded | e]]; [ | reflexivity ].
  rewrite bind_ok. cbn [trace fst].
  destruct (py_iter loaded) as [ds | e]; [ | cbn; apply app_nil_r ].
  rewrite bind_lift_ok. cbn. apply app_nil_r.
Qed.

Lemma datasets_dict_no_subprocess (w : world) :
  no_subprocess (trace (datasets_dict w)).
Proof. rewrite datasets_dict_trace. apply load_datasets_no_subprocess. Qed.

(** ** The POST handler, case by case *)

Lemma pystr_eqb_neq (a b : pystr) : pystr_eqb a b = false <-> a <> b.
Proof.
  unfold pystr_eqb. destruct (pystr_eq_dec a b); split; congruence.
Qed.

Lemma dict_mem_get (dd : pydict) (k : hkey) :
  dict_mem dd k = true <-> exists d, dict_get dd k = Some d.
Proof.
  unfold dict_mem. destruct (dict_get dd k) as [d | ]; split.
  - eauto.
  - reflexivity.
  - discriminate.
  - intros [d H]. discriminate.
Qed.

Section AskCases.

Variable DATA_ROOT : path.
Variable sys_executable : pystr.
Variable w : world.
Variable form : multidict.

Let q := question_of form.
Let k := ds_key_of form.
Let m := method_of form.

Lemma ask_registry_raises (e : exn) :
  result (datasets_dict w) = Raise e ->
  ask DATA_ROOT sys_executable w form = (trace (datasets_dict w), Raise e).
Proof.
  intros H. unfold ask.
  rewrite (eta_M (datasets_dict w)), H. reflexivity.
Qed.

Lemma ask_invalid (dd : pydict) :
  result (datasets_dict w) = Ok dd ->
  q = [] \/ dict_mem dd (form_key k) = false ->
  ask DATA_ROOT sys_executable w form =
    (trace (datasets_dict w)
       ++ [EvFlash (lit "Please enter a question and choose a dataset.")
                   (lit "danger")],
     Ok (Redirect (url_for_index (script_name w)))).
Proof.
  intros Hdd Hbad. unfold ask.
  rewrite (eta_M (datasets_dict w)), Hdd, bind_ok.
  fold (question_of form) (ds_key_of form). fold q k.
  assert (Hc : pystr_eqb q [] || negb (dict_mem dd (form_key k)) = true).
  { destruct Hbad as [-> | ->]; [ reflexivity | apply orb_true_r ]. }
  rewrite Hc. reflexivity.
Qed.

Lemma ask_valid (dd : pydict) (d : pyval) (p : pystr) :
  result (datasets_dict w) = Ok dd ->
  q <> [] ->
  dict_get dd (form_key k) = Some d ->
  getitem_str d (lit "path") = Ok (PyStr p) ->
  let cmd := argv_of sys_executable
               (path_str (joinpath DATA_ROOT (Path p))) m q in
  ask DATA_ROOT sys_executable w form =
    (trace (datasets_dict w) ++ [EvRun cmd],
     after_run dd form (graphrag w cmd)).
Proof.
  intros Hdd Hq Hd Hp cmd. unfold ask.
  rewrite (eta_M (datasets_dict w)), Hdd, bind_ok.
  fold (question_of form) (ds_key_of form) (method_of form). fold q k m.
  apply pystr_eqb_neq in Hq.
  assert (Hmem : dict_mem dd (form_key k) = true)
    by (apply dict_mem_get; eauto).
  rewrite Hq, Hmem. cbn [orb negb].
  unfold dict_getitem. rewrite Hd, bind_lift_ok, Hp, bind_lift_ok.
  cbn [path_truediv]. rewrite bind_lift_ok.
  unfold graphrag_cli_query, subprocess_run_checked.
  fold (argv_of sys_executable (path_str (joinpath DATA_ROOT (Path p))) m q).
  fold cmd. unfold after_run. fold q k m.
  destruct (graphrag w cmd) as [rc out err | e].
  - destruct (rc =? 0)%Z; reflexivity.
  - destruct e; reflexivity.
Qed.

End AskCases.

Section AskInversion.

Variable DATA_ROOT : path.
Variable sys_executable : pystr.
Variable w : world.
Variable form : multidict.

(** Validation passed, but the chosen entry has no usable [path]. *)
Lemma ask_path_raises (dd : pydict) (d : pyval) :
  result (datasets_dict w) = Ok dd ->
  question_of form <> [] ->
  dict_get dd (form_key (ds_key_of form)) = Some d ->
  (forall p, getitem_str d (lit "path") <> Ok (PyStr p)) ->
  exists e,
    ask DATA_ROOT sys_executable w form = (trace (datasets_dict w), Raise e).
Proof.
  intros Hdd Hq Hd Hp. unfold ask.
  rewrite (eta_M (datasets_dict w)), Hdd, bind_ok.
  fold (question_of form) (ds_key_of form) (method_of form).
  apply pystr_eqb_neq in Hq.
  assert (Hmem : dict_mem dd (form_key (ds_key_of form)) = true)
    by (apply dict_mem_get; eauto).
  rewrite Hq, Hmem. cbn [orb negb].
  unfold dict_getitem. rewrite Hd, bind_lift_ok.
  destruct (getitem_str d (lit "path")) as [v | e].
  - rewrite bind_lift_ok.
    destruct v; try (exists TypeError; cbn; now rewrite app_nil_r).
    now destruct (Hp s).
  - exists e. cbn. now rewrite app_nil_r.
Qed.

Lemma ask_cases : ask_case DATA_ROOT sys_executable w form.
Proof.
  destruct (result (datasets_dict w)) as [dd | e] eqn:Hdd.
  2: { eapply AskRaises, ask_registry_raises. eassumption. }
  destruct (pystr_eq_dec (question_of form) []) as [Hq | Hq].
  { eapply AskRejects; eauto. apply ask_invalid with (dd := dd); auto. }
  destruct (dict_get dd (form_key (ds_key_of form))) as [d | ] eqn:Hd.
  2: { assert (Hmem : dict_mem dd (form_key (ds_key_of form)) = false)
         by (unfold dict_mem; now rewrite Hd).
       eapply AskRejects; eauto. apply ask_invalid with (dd := dd); auto. }
  destruct (getitem_str d (lit "path")) as [[| | | | p | |] | e] eqn:Hp.
  5: { eapply AskQueries; eauto. intros cmd. now apply ask_valid with (d := d). }
  all: destruct (@ask_path_raises dd d Hdd Hq Hd) as [e' He'];
    [ intros p' Hp'; rewrite Hp in Hp'; discriminate
    | eapply AskRaises; eauto ].
Qed.

(** A subprocess in the trace means validation passed and the path was
    resolved. *)
Lemma ask_run_inv (argv : list pystr) :
  In (EvRun argv) (trace (ask DATA_ROOT sys_executable w form)) ->
  exists dd d p,
    result (datasets_dict w) = Ok dd /\
    question_of form <> [] /\
    dict_get dd (form_key (ds_key_of form)) = Some d /\
    getitem_str d (lit "path") = Ok (PyStr p) /\
    argv = argv_of sys_executable (path_str (joinpath DATA_ROOT (Path p)))
             (method_of form) (question_of form) /\
    result (ask DATA_ROOT sys_executable w form)
      = after_run dd form (graphrag w argv).
Proof.
  intros Hin. destruct ask_cases.
  - rewrite Hrun in Hin. now apply datasets_dict_no_subprocess in Hin.
  - rewrite Hrun in Hin. cbn [trace fst] in Hin.
    apply in_app_or in Hin. destruct Hin as [Hin | [Hin | []]].
    + now apply datasets_dict_no_subprocess in Hin.
    + discriminate.
  - cbv zeta in Hrun. rewrite Hrun in Hin |- *. cbn [trace result fst snd] in *.
    apply in_app_or in Hin. destruct Hin as [Hin | [Hin | []]].
    + now apply datasets_dict_no_subprocess in Hin.
    + injection Hin as <-. exists dd, d, p. auto 8.
Qed.

End AskInversion.

(** ** Dictionaries *)

Module Dict.

Lemma get_set (a : pydict) (k k' : hkey) (v : pyval) :
  dict_get (dict_set a k v) k'
  = if hkey_eq_dec k k' then Some v else dict_get a k'.
Proof.
  induction a as [ | [k1 v1] a IH]; cbn.
  - reflexivity.
  - destruct (hkey_eq_dec k1 k) as [-> | Hk1]; cbn.
    + destruct (hkey_eq_dec k k'); reflexivity.
    + rewrite IH.
      destruct (hkey_eq_dec k1 k'), (hkey_eq_dec k k'); congruence.
Qed.

Lemma get_set_same (a : pydict) (k : hkey) (v : pyval) :
  dict_get (dict_set a k v) k = Some v.
Proof. rewrite get_set. destruct (hkey_eq_dec k k); congruence. Qed.

Lemma get_set_other (a : pydict) (k k' : hkey) (v : pyval) :
  k <> k' -> dict_get (dict_set a k v) k' = dict_get a k'.
Proof. intros H. rewrite get_set. destruct (hkey_eq_dec k k'); congruence. Qed.



(** Every key of the dictionary is held once. *)
Lemma set_keys_nodup (a : pydict) (k : hkey) (v : pyval) :
  NoDup (map fst a) -> NoDup (map fst (dict_set a k v)).
Proof.
  induction a as [ | [k1 v1] a IH]; cbn; intros H.
  - constructor; [ intros [] | constructor ].
  - inversion H as [ | ? ? Hnin Hnd]; subst.
    destruct (hkey_eq_dec k1 k) as [-> | Hne]; cbn.
    + now constructor.
    + constructor; auto.
      intros Hin. apply Hnin. clear - Hin Hne.
      induction a as [ | [k2 v2] a IH]; cbn in *.
      * destruct Hin as [-> | []]. congruence.
      * destruct (hkey_eq_dec k2 k); cbn in *; intuition.
Qed.

End Dict.

(** ** Building the key-to-descriptor lookup *)

Lemma key_of_step (d : pyval) (ds : list pyval) (acc : pydict) (hk : hkey) :
  key_of d = Some hk ->
  index_by_key (d :: ds) acc = index_by_key ds (dict_set acc hk d).
Proof.
  unfold key_of. cbn.
  destruct (getitem_str d (lit "key")) as [k | e]; [ | discriminate ].
  intros Hk. now rewrite Hk.
Qed.

Lemma index_by_key_ok_inv (d : pyval) (ds : list pyval) (acc dd : pydict) :
  index_by_key (d :: ds) acc = Ok dd ->
  exists hk, key_of d = Some hk
             /\ index_by_key ds (dict_set acc hk d) = Ok dd.
Proof.
  unfold key_of. cbn.
  destruct (getitem_str d (lit "key")) as [k | e]; [ | discriminate ].
  destruct (py_key k) as [hk | ]; [ | discriminate ].
  eauto.
Qed.

Lemma index_by_key_app (l l' : list pyval) (acc : pydict) :
  index_by_key (l ++ l') acc
  = match index_by_key l acc with
    | Ok a => index_by_key l' a
    | Raise e => Raise e
    end.
Proof.
  revert acc. induction l as [ | d l IH]; intros acc; cbn.
  - reflexivity.
  - destruct (getitem_str d (lit "key")) as [k | e]; [ | reflexivity ].
    destruct (py_key k); [ apply IH | reflexivity ].
Qed.

(** Entries filed under other keys leave the slot of [hk] alone. *)
Lemma index_by_key_other_keys (hk : hkey) (l : list pyval) (acc dd : pydict) :
  Forall (fun d => key_of d <> Some hk) l ->
  index_by_key l acc = Ok dd ->
  dict_get dd hk = dict_get acc hk.
Proof.
  intros Hl. revert acc. induction Hl as [ | d l Hd Hl IH]; intros acc H.
  - cbn in H. congruence.
  - apply index_by_key_ok_inv in H. destruct H as (hk' & Hk' & H).
    rewrite (IH _ H). apply Dict.get_set_other. congruence.
Qed.

(** The entry that comes last among those filed under [hk] is the one the
    lookup holds. *)
Lemma index_by_key_last (hk : hkey) (l l' : list pyval) (d : pyval)
    (acc dd : pydict) :
  key_of d = Some hk ->
  Forall (fun d' => key_of d' <> Some hk) l' ->
  index_by_key (l ++ d :: l') acc = Ok dd ->
  dict_get dd hk = Some d.
Proof.
  intros Hd Hl' H. rewrite index_by_key_app in H.
  destruct (index_by_key l acc) as [a | e]; [ | discriminate ].
  rewrite key_of_step with (hk := hk) in H by assumption.
  rewrite index_by_key_other_keys with (l := l') (acc := dict_set a hk d);
    auto using Dict.get_set_same.
Qed.


(** The lookup holds every key once. *)
Lemma index_by_key_keys_nodup (ds : list pyval) (acc dd : pydict) :
  NoDup (map fst acc) ->
  index_by_key ds acc = Ok dd ->
  NoDup (map fst dd).
Proof.
  revert acc. induction ds as [ | d ds IH]; intros acc Hacc H.
  - cbn in H. congruence.
  - apply index_by_key_ok_inv in H. destruct H as (hk & _ & H).
    eapply IH; [ | exact H ]. now apply Dict.set_keys_nodup.
Qed.

(** ** The registry as the handler sees it *)

Lemma datasets_dict_result (w : world) :
  result (datasets_dict w)
  = match result (load_datasets w) with
    | Ok loaded =>
        match py_iter loaded with
        | Ok ds => index_by_key ds []
        | Raise e => Raise e
        end
    | Raise e => Raise e
    end.
Proof.
  unfold datasets_dict.
  destruct (load_datasets w) as [t [loaded | e]]; [ | reflexivity ].
  rewrite bind_ok. cbn [result snd].
  destruct (py_iter loaded) as [ds | e]; [ | reflexivity ].
  now rewrite bind_lift_ok.
Qed.

Lemma load_datasets_result (w : world) :
  result (load_datasets w)
  = match listing w with
    | Missing | Malformed _ => Ok (PyList [])
    | Unreadable => Raise OSError
    | Undecodable => Raise UnicodeDecodeError
    | WellFormed v => Ok v
    | Unloadable why => Raise (load_failure_exn why)
    end.
Proof.
  unfold load_datasets.
  destruct (listing w) as [ | | | msg | v | why]; try reflexivity.
  now destruct why.
Qed.


(** ** Paths *)

Module Pathlib.

Lemma sep_eq : sep = [47%N].
Proof. reflexivity. Qed.

Lemma joinpath_absolute (a b : path) :
  is_absolute b = true -> joinpath a b = b.
Proof. unfold joinpath. now intros ->. Qed.

Lemma joinpath_relative (a b : path) :
  is_absolute b = false ->
  joinpath a b = mkpath (root a) (parts a ++ parts b).
Proof. unfold joinpath. now intros ->. Qed.

(** Text that starts with a slash parses to a rooted path. *)
Lemma Path_rooted (rest : pystr) : is_absolute (Path (47%N :: rest)) = true.
Proof.
  unfold is_absolute, Path, splitroot. rewrite sep_eq.
  change (pystr_eqb (firstn 1 (47%N :: rest)) [47%N]) with true.
  cbn [negb].
  destruct (negb (pystr_eqb (firstn 1 (skipn 1 (47%N :: rest))) [47%N])
            || pystr_eqb (firstn 1 (skipn 2 (47%N :: rest))) [47%N]).
  - reflexivity.
  - destruct rest; reflexivity.
Qed.

(** Other text parses to a relative one. *)
Lemma Path_unrooted (s : pystr) :
  (forall rest, s <> 47%N :: rest) -> is_absolute (Path s) = false.
Proof.
  intros Hs. unfold is_absolute, Path, splitroot. rewrite sep_eq.
  assert (H : pystr_eqb (firstn 1 s) [47%N] = false).
  { apply pystr_eqb_neq. destruct s as [ | c s]; cbn; [ discriminate | ].
    intros E. injection E as ->. now apply (Hs s). }
  rewrite H. reflexivity.
Qed.

Lemma split_on_plain (c : N) (x : pystr) :
  ~ In c x -> split_on c x = [x].
Proof.
  induction x as [ | y x IH]; cbn; intros H.
  - reflexivity.
  - destruct (N.eqb_spec y c) as [-> | Hne]; [ tauto | ].
    rewrite IH by tauto. reflexivity.
Qed.

Lemma split_on_app (c : N) (x rest : pystr) :
  ~ In c x -> split_on c (x ++ c :: rest) = x :: split_on c rest.
Proof.
  induction x as [ | y x IH]; cbn; intros H.
  - now rewrite N.eqb_refl.
  - destruct (N.eqb_spec y c) as [-> | Hne]; [ tauto | ].
    rewrite IH by tauto. reflexivity.
Qed.

Lemma split_on_join (cs : list pystr) :
  cs <> [] -> Forall (fun x => ~ In 47%N x) cs ->
  split_on 47 (join_with sep cs) = cs.
Proof.
  intros Hne H. revert Hne.
  induction H as [ | x cs Hx Hcs IH]; intros Hne; [ now destruct Hne | ].
  destruct cs as [ | y cs].
  - cbn. now apply split_on_plain.
  - cbn [join_with]. rewrite sep_eq. cbn [app].
    rewrite split_on_app by assumption.
    f_equal. apply IH. discriminate.
Qed.

(** A rooted path in normal form is what its own text parses to. *)
Lemma Path_str_rooted (cs : list pystr) :
  Forall component cs ->
  Path (path_str (mkpath sep cs)) = mkpath sep cs.
Proof.
  intros Hcs. unfold path_str. cbn [root parts]. rewrite sep_eq at 1.
  cbn [app]. unfold Path, splitroot. rewrite sep_eq.
  change (pystr_eqb (firstn 1 (47%N :: join_with [47%N] cs)) [47%N]) with true.
  cbn [negb skipn].
  assert (Hfilter : forall l, Forall component l ->
            filter (fun x => negb (pystr_eqb x []) && negb (pystr_eqb x (lit ".")))
                   l = l).
  { intros l Hl. induction Hl as [ | x l (Hx1 & Hx2 & _) _ IH]; cbn.
    - reflexivity.
    - apply pystr_eqb_neq in Hx1, Hx2. rewrite Hx1, Hx2. cbn. now rewrite IH. }
  destruct cs as [ | x cs].
  - reflexivity.
  - assert (Hsplit : split_on 47 (join_with [47%N] (x :: cs)) = x :: cs).
    { rewrite <- sep_eq. apply split_on_join; [ discriminate | ].
      eapply Forall_impl; [ | exact Hcs ]. now intros c (_ & _ & Hc). }
    assert (Hhead : pystr_eqb (firstn 1 (join_with [47%N] (x :: cs))) [47%N]
                    = false).
    { apply pystr_eqb_neq. inversion Hcs as [ | ? ? (Hx1 & _ & Hx3) _]; subst.
      destruct x as [ | c x]; [ now destruct Hx1 | ].
      assert (c <> 47%N) by (intros ->; apply Hx3; now left).
      destruct cs; cbn; congruence. }
    rewrite Hhead. cbn [negb orb]. rewrite Hsplit. now rewrite Hfilter.
Qed.

End Pathlib.

(** ** Trimming *)

Lemma lstrip_nil_iff (s : pystr) :
  lstrip s = [] <-> forallb isspace s = true.
Proof.
  induction s as [ | c s IH]; cbn.
  - tauto.
  - destruct (isspace c); cbn; [ exact IH | split; discriminate ].
Qed.

Lemma lstrip_head (s : pystr) (c : N) (s' : pystr) :
  lstrip s = c :: s' -> isspace c = false.
Proof.
  induction s as [ | x s IH]; cbn; [ discriminate | ].
  destruct (isspace x) eqn:Hx; [ exact IH | ].
  intros E. injection E as <- _. exact Hx.
Qed.

Lemma rev_nil_iff {A} (l : list A) : rev l = [] <-> l = [].
Proof.
  split; intros H.
  - rewrite <- (rev_involutive l), H. reflexivity.
  - now subst.
Qed.

(** The trimmed text is empty exactly when the text is all whitespace. *)
Lemma strip_nil_iff (s : pystr) :
  strip s = [] <-> forallb isspace s = true.
Proof.
  unfold strip, rstrip. split.
  - intros H. apply rev_nil_iff, lstrip_nil_iff in H.
    apply lstrip_nil_iff.
    destruct (lstrip s) as [ | c s'] eqn:E; [ reflexivity | ].
    apply lstrip_head in E. rewrite forallb_forall in H.
    assert (Hc : isspace c = true)
      by (apply H, in_rev; rewrite rev_involutive; now left).
    congruence.
  - intros H. apply lstrip_nil_iff in H. now rewrite H.
Qed.

(** The handler's question is empty exactly when the submitted field is
    absent, empty or made of whitespace only. *)
Lemma question_of_nil_iff (form : multidict) :
  question_of form = []
  <-> forallb isspace (form_get_default form (lit "question") []) = true.
Proof. apply strip_nil_iff. Qed.

(** ** The form page's URL *)

(** Served at the root the form page is ["/"]; mounted under a prefix it is
    that prefix and a slash. *)
Lemma url_for_index_root : url_for_index [] = lit "/".
Proof. reflexivity. Qed.

Lemma url_for_index_mounted (prefix : pystr) (c : N) :
  c <> 47%N ->
  url_for_index (prefix ++ [c]) = prefix ++ [c] ++ lit "/"
  /\ url_for_index (prefix ++ [c] ++ lit "/") = prefix ++ [c] ++ lit "/".
Proof.
  intros Hc. apply N.eqb_neq in Hc. unfold url_for_index, rstrip_sep.
  change (lit "/") with [47%N]. split.
  - rewrite rev_app_distr. cbn. rewrite Hc. cbn.
    now rewrite rev_involutive, <- app_assoc.
  - rewrite !rev_app_distr. cbn. rewrite Hc. cbn.
    now rewrite rev_involutive, <- app_assoc.
Qed.

(** ** The claims *)

(** C1, as amended. A POST whose question field is absent or whose
    trimmed question is empty never starts a subprocess; and whenever the
    registry loads and can be indexed by key, a POST with such a question,
    or with a dataset key that is not a key of the registry, starts no
    subprocess, flashes the warning and is answered by a redirect to the
    form page, the URL of [index] under the request's script name. *)
Theorem ask_rejects_invalid_request
    (DATA_ROOT : path) (sys_executable : pystr) (w : world)
    (form : multidict) :
  (form_get form (lit "question") = None \/ question_of form = [] ->
   no_subprocess (trace (ask DATA_ROOT sys_executable w form)))
  /\ (forall dd,
        result (datasets_dict w) = Ok dd ->
        form_get form (lit "question") = None
        \/ question_of form = []
        \/ dict_mem dd (form_key (ds_key_of form)) = false ->
        no_subprocess (trace (ask DATA_ROOT sys_executable w form))
        /\ In (EvFlash (lit "Please enter a question and choose a dataset.")
                       (lit "danger"))
              (trace (ask DATA_ROOT sys_executable w form))
        /\ result (ask DATA_ROOT sys_executable w form)
           = Ok (Redirect (url_for_index (script_name w)))).
Proof.
  assert (Habsent : form_get form (lit "question") = None ->
                    question_of form = []).
  { intros H. unfold question_of, form_get_default. now rewrite H. }
  split.
  - intros Hq argv Hin. apply ask_run_inv in Hin.
    destruct Hin as (dd & d & p & _ & Hne & _). tauto.
  - intros dd Hdd Hbad.
    assert (Hbad' : question_of form = []
                    \/ dict_mem dd (form_key (ds_key_of form)) = false)
      by tauto.
    rewrite (ask_invalid DATA_ROOT sys_executable w form Hdd Hbad').
    cbn [trace result fst snd]. repeat split.
    + intros argv Hin. apply in_app_or in Hin.
      destruct Hin as [Hin | [Hin | []]].
      * now apply datasets_dict_no_subprocess in Hin.
      * discriminate.
    + apply in_or_app. right. now left.
Qed.

Lemma ask_rejects_invalid_request_witness :
  result (datasets_dict (mkworld listing_alpha engine_answers))
    = Ok [(KStr (lit "alpha"), descriptor "alpha" "alpha_data")]
  /\ question_of form_blank = []
  /\ trace (ask data_root python (mkworld listing_alpha engine_answers) form_blank)
     = [EvFlash (lit "Please enter a question and choose a dataset.")
                (lit "danger")]
  /\ result (ask data_root python (mkworld listing_alpha engine_answers) form_blank)
     = Ok (Redirect (lit "/")).
Proof.
  split; [ reflexivity | ]. split; [ reflexivity | ]. split; [ reflexivity | ].
  apply (proj2 (@ask_rejects_invalid_request data_root python
                  (mkworld listing_alpha engine_answers) form_blank)
           [(KStr (lit "alpha"), descriptor "alpha" "alpha_data")]).
  - reflexivity.
  - right. left. reflexivity.
Defined.

(** C1 as stated fails: with a blank question and a listing whose entry
    has no [key], building the lookup raises [KeyError] before the
    validation is reached, so there is neither warning nor redirect. *)
Lemma ask_blank_question_keyless_listing :
  question_of form_blank = []
  /\ ask data_root python (mkworld listing_keyless engine_answers) form_blank
     = ([], Raise (KeyError (PyStr (lit "key")))).
Proof. split; reflexivity. Qed.

(** C2. When a POST reaches the Query Invoker and the external process
    exits with a non-zero code and captured standard error [s], the page is
    rendered with the answer ["GraphRAG query failed:\n"], then the first
    500 characters of [s], then ["..."]; the dots are there even when [s]
    has fewer than 500 characters. *)
Theorem failed_query_answer
    (DATA_ROOT : path) (sys_executable : pystr) (w : world)
    (form : multidict) (argv : list pystr) (rc : Z) (out s : pystr) :
  In (EvRun argv) (trace (ask DATA_ROOT sys_executable w form)) ->
  graphrag w argv = Exited rc out s ->
  rc <> 0%Z ->
  exists ctx,
    result (ask DATA_ROOT sys_executable w form)
      = Ok (Rendered (lit "index.html") ctx)
    /\ kwarg "answer" ctx
       = Some (PyStr (lit "GraphRAG query failed:" ++ [10%N]
                        ++ firstn 500 s ++ lit "..."))
    /\ (List.length s <= 500 ->
        kwarg "answer" ctx
        = Some (PyStr (lit "GraphRAG query failed:" ++ [10%N]
                         ++ s ++ lit "..."))).
Proof.
  intros Hin Hrun Hrc.
  apply ask_run_inv in Hin.
  destruct Hin as (dd & d & p & _ & _ & _ & _ & _ & Hres).
  rewrite Hres, Hrun. unfold after_run.
  apply Z.eqb_neq in Hrc. rewrite Hrc.
  eexists. split; [ reflexivity | ]. split.
  - reflexivity.
  - intros Hlen. cbn [kwarg answer_page]. cbn. unfold failure_text, slice_to.
    now rewrite firstn_all2.
Qed.

Lemma failed_query_answer_witness :
  List.length long_stderr = 600
  /\ exists ctx,
       result (ask data_root python (mkworld listing_alpha engine_breaks)
                 form_alpha_local)
         = Ok (Rendered (lit "index.html") ctx)
       /\ kwarg "answer" ctx
          = Some (PyStr (lit "GraphRAG query failed:" ++ [10%N]
                           ++ repeat 120%N 500 ++ lit "...")).
Proof.
  split; [ reflexivity | ].
  destruct (@failed_query_answer data_root python
              (mkworld listing_alpha engine_breaks) form_alpha_local
              (argv_of python (lit "/srv/graphrag/alpha_data") (lit "local")
                 (lit "What is X?"))
              1%Z [] long_stderr) as (ctx & Hres & Hans & _).
  - vm_compute. left. reflexivity.
  - reflexivity.
  - discriminate.
  - exists ctx. split; [ exact Hres | exact Hans ].
Defined.

(** C3, as amended. [load_datasets] returns normally when the listing
    file is missing, malformed, or JSON text that [json.load] parses to a
    value: the empty list in the first two cases, the parsed value in the
    third. When the file exists but cannot be opened, the [OSError] reaches
    the caller, and so does the [ValueError] or [RecursionError] that
    [json.load] raises on JSON text it cannot load. *)
Theorem load_datasets_failure_policy (w : world) :
  match listing w with
  | Missing | Malformed _ => result (load_datasets w) = Ok (PyList [])
  | WellFormed v => result (load_datasets w) = Ok v
  | Unreadable => result (load_datasets w) = Raise OSError
  | Unloadable IntegerTooLong => result (load_datasets w) = Raise ValueError
  | Unloadable NestingTooDeep => result (load_datasets w) = Raise RecursionError
  | Undecodable => True
  end.
Proof.
  rewrite load_datasets_result.
  destruct (listing w) as [ | | | msg | v | why]; try destruct why; easy.
Qed.

(** C3 as stated fails: a listing file that exists but cannot be opened
    makes [load_datasets] raise. *)
Lemma load_datasets_unreadable_raises :
  load_datasets (mkworld Unreadable engine_answers) = ([], Raise OSError)
  /\ (forall v, result (load_datasets (mkworld Unreadable engine_answers))
                <> Ok v).
Proof. split; [ reflexivity | discriminate ]. Qed.

(** C4, as amended. A listing that [json.load] parses to a value is
    returned as parsed, whatever its shape; a missing file and text that
    [json.load] rejects as not JSON give the empty list. JSON text on which
    [json.load] raises [ValueError] (an integer too long) or
    [RecursionError] (nesting too deep) makes [load_datasets] raise that
    error. *)
Theorem load_datasets_returns_parsed (w : world) :
  (forall v, listing w = WellFormed v ->
     load_datasets w = ([], Ok v))
  /\ (forall l, listing w = WellFormed (PyList l) ->
        result (load_datasets w) = Ok (PyList l)
        /\ py_iter (PyList l) = Ok l)
  /\ (listing w = Missing -> result (load_datasets w) = Ok (PyList []))
  /\ (forall msg, listing w = Malformed msg ->
        result (load_datasets w) = Ok (PyList []))
  /\ (forall why, listing w = Unloadable why ->
        load_datasets w = ([], Raise (load_failure_exn why))).
Proof.
  unfold load_datasets. repeat split; intros; rewrite H; try reflexivity.
  now destruct why.
Qed.

Lemma load_datasets_returns_parsed_witness :
  load_datasets (mkworld listing_twice engine_answers)
  = ([], Ok (PyList [ descriptor "alpha" "old_data";
                      descriptor "beta" "beta_data";
                      descriptor "alpha" "new_data" ])).
Proof.
  apply (proj1 (load_datasets_returns_parsed
                  (mkworld listing_twice engine_answers))).
  reflexivity.
Defined.

(** C4 as stated fails: a listing that is JSON text with an integer longer
    than the interpreter converts is well-formed, yet [load_datasets]
    raises [ValueError] and returns nothing. *)
Lemma load_datasets_long_integer_raises :
  load_datasets (mkworld (Unloadable IntegerTooLong) engine_answers)
  = ([], Raise ValueError)
  /\ (forall v,
        result (load_datasets (mkworld (Unloadable IntegerTooLong)
                                 engine_answers)) <> Ok v).
Proof. split; [ reflexivity | discriminate ]. Qed.

(** C5, as amended. When the subprocess call completes (the external
    process is started, its output is captured as text and it exits with
    code [rc]), the Query Invoker raises exactly when [rc] is not zero, and
    then raises [CalledProcessError] carrying [rc] and the captured standard
    error; when [rc] is zero it returns the captured standard output,
    trimmed. When [subprocess.run] itself raises, the Query Invoker fails
    with that error, with no exit code to report. *)
Theorem graphrag_cli_query_outcome
    (sys_executable : pystr) (w : world) (dataset_path : path)
    (question method : pystr) :
  (forall rc out err,
     graphrag w (argv_of sys_executable (path_str dataset_path) method question)
       = Exited rc out err ->
     ((exists e, result (graphrag_cli_query sys_executable w dataset_path
                           question (Some method)) = Raise e)
      <-> rc <> 0%Z)
     /\ (rc <> 0%Z ->
         result (graphrag_cli_query sys_executable w dataset_path question
                   (Some method))
         = Raise (CalledProcessError rc
                    (argv_of sys_executable (path_str dataset_path) method
                       question)
                    out err))
     /\ (rc = 0%Z ->
         result (graphrag_cli_query sys_executable w dataset_path question
                   (Some method))
         = Ok (strip out)))
  /\ (forall e,
        graphrag w (argv_of sys_executable (path_str dataset_path) method
                      question)
          = Failed e ->
        result (graphrag_cli_query sys_executable w dataset_path question
                  (Some method))
        = Raise e).
Proof.
  unfold graphrag_cli_query, subprocess_run_checked.
  fold (argv_of sys_executable (path_str dataset_path) method question).
  split.
  - intros rc out err Hrun. rewrite Hrun.
    destruct (Z.eqb_spec rc 0) as [-> | Hrc]; cbn.
    + repeat split; try congruence. intros [e He]. discriminate.
    + repeat split; try congruence. eauto.
  - intros e Hrun. rewrite Hrun. reflexivity.
Qed.

Lemma graphrag_cli_query_outcome_witness :
  result (graphrag_cli_query python (mkworld Missing engine_answers)
            data_root (lit "What is X?") (Some (lit "local")))
  = Ok (lit "Paris is the capital.").
Proof.
  apply (proj1 (@graphrag_cli_query_outcome python
                  (mkworld Missing engine_answers)
                  data_root (lit "What is X?") (lit "local"))
           0%Z (lit "  Paris is the capital.  " ++ [10%N]) []).
  - reflexivity.
  - reflexivity.
Defined.

(** C5 as stated fails: a question that holds a NUL character makes
    [subprocess.run] raise [ValueError] before any process is started, so
    the Query Invoker fails although no process exits with a non-zero
    code. *)
Lemma graphrag_cli_query_nul_argument :
  engine_posix (argv_of python (path_str data_root) (lit "local") question_nul)
  = Failed ValueError
  /\ graphrag_cli_query python (mkworld Missing engine_posix) data_root
       question_nul (Some (lit "local"))
     = ([EvRun (argv_of python (lit "/srv/graphrag") (lit "local")
                  question_nul)],
        Raise ValueError).
Proof. split; reflexivity. Qed.






(** C8. When the loaded registry holds two (or more) entries under one
    key, the lookup built by the POST handler maps that key to the entry
    that comes last among them; validation and path resolution then go by
    that entry: a request for the key queries the last entry's path. *)
Theorem duplicate_key_last_wins
    (DATA_ROOT : path) (sys_executable : pystr) (w : world)
    (form : multidict) (l1 l2 l3 : list pyval) (d1 d2 : pyval)
    (hk : hkey) (dd : pydict) :
  listing w = WellFormed (PyList (l1 ++ d1 :: l2 ++ d2 :: l3)) ->
  key_of d1 = Some hk ->
  key_of d2 = Some hk ->
  Forall (fun d => key_of d <> Some hk) l3 ->
  result (datasets_dict w) = Ok dd ->
  dict_get dd hk = Some d2
  /\ dict_mem dd hk = true
  /\ (forall p,
        form_key (ds_key_of form) = hk ->
        question_of form <> [] ->
        getitem_str d2 (lit "path") = Ok (PyStr p) ->
        In (EvRun (argv_of sys_executable
                     (path_str (joinpath DATA_ROOT (Path p)))
                     (method_of form) (question_of form)))
           (trace (ask DATA_ROOT sys_executable w form))).
Proof.
  intros Hlist Hk1 Hk2 Hl3 Hdd.
  assert (Hget : dict_get dd hk = Some d2).
  { rewrite datasets_dict_result, load_datasets_result, Hlist in Hdd.
    cbn [py_iter] in Hdd.
    change (l1 ++ d1 :: l2 ++ d2 :: l3) with (l1 ++ (d1 :: l2) ++ d2 :: l3)
      in Hdd.
    rewrite app_assoc in Hdd.
    eapply index_by_key_last; eauto. }
  split; [ exact Hget | ].
  split; [ apply dict_mem_get; eauto | ].
  intros p Hform Hq Hp. rewrite <- Hform in Hget.
  pose proof (ask_valid DATA_ROOT sys_executable w form Hdd Hq Hget Hp) as H.
  cbv zeta in H. rewrite H. cbn [trace fst].
  apply in_or_app. right. now left.
Qed.

Lemma duplicate_key_last_wins_witness :
  dict_get [ (KStr (lit "alpha"), descriptor "alpha" "new_data");
             (KStr (lit "beta"), descriptor "beta" "beta_data") ]
    (KStr (lit "alpha"))
  = Some (descriptor "alpha" "new_data")
  /\ In (EvRun (argv_of python (lit "/srv/graphrag/new_data") (lit "local")
                  (lit "What is X?")))
        (trace (ask data_root python (mkworld listing_twice engine_answers)
                  form_alpha_local)).
Proof.
  destruct (@duplicate_key_last_wins data_root python
              (mkworld listing_twice engine_answers) form_alpha_local
              [] [descriptor "beta" "beta_data"] []
              (descriptor "alpha" "old_data") (descriptor "alpha" "new_data")
              (KStr (lit "alpha"))
              [ (KStr (lit "alpha"), descriptor "alpha" "new_data");
                (KStr (lit "beta"), descriptor "beta" "beta_data") ])
    as (Hget & _ & Hask).
  - reflexivity.
  - reflexivity.
  - reflexivity.
  - constructor.
  - reflexivity.
  - split; [ exact Hget | ].
    apply (Hask (lit "new_data")).
    + reflexivity.
    + discriminate.
    + reflexivity.
Defined.

(** C9. A POST whose form has no [method] field goes by the method
    ["global"]: every subprocess it starts is given [--method global], the
    page it renders reports method ["global"], and when the request passes
    validation the Query Invoker is indeed called that way. (The Query
    Invoker's own default for a method left out is ["global"] as well.) *)
Theorem ask_method_defaults_to_global
    (DATA_ROOT : path) (sys_executable : pystr) (w : world)
    (form : multidict) :
  form_get form (lit "method") = None ->
  method_of form = lit "global"
  /\ (forall argv,
        In (EvRun argv) (trace (ask DATA_ROOT sys_executable w form)) ->
        exists root_arg,
          argv = [ sys_executable; lit "-m"; lit "graphrag"; lit "query";
                   lit "--root"; root_arg; lit "--method"; lit "global";
                   lit "--query"; question_of form ])
  /\ (forall template ctx,
        result (ask DATA_ROOT sys_executable w form)
          = Ok (Rendered template ctx) ->
        kwarg "method" ctx = Some (PyStr (lit "global")))
  /\ (forall dd d p,
        result (datasets_dict w) = Ok dd ->
        question_of form <> [] ->
        dict_get dd (form_key (ds_key_of form)) = Some d ->
        getitem_str d (lit "path") = Ok (PyStr p) ->
        In (EvRun (argv_of sys_executable
                     (path_str (joinpath DATA_ROOT (Path p)))
                     (lit "global") (question_of form)))
           (trace (ask DATA_ROOT sys_executable w form)))
  /\ (forall dataset_path question,
        graphrag_cli_query sys_executable w dataset_path question None
        = graphrag_cli_query sys_executable w dataset_path question
            (Some (lit "global"))).
Proof.
  intros Habsent.
  assert (Hm : method_of form = lit "global")
    by (unfold method_of, form_get_default; now rewrite Habsent).
  split; [ exact Hm | ]. split; [ | split; [ | split; [ | reflexivity ] ] ].
  - intros argv Hin. apply ask_run_inv in Hin.
    destruct Hin as (dd & d & p & _ & _ & _ & _ & -> & _).
    rewrite Hm. eexists. reflexivity.
  - intros template ctx Hres.
    destruct (ask_cases DATA_ROOT sys_executable w form)
      as [e Hrun | dd _ _ Hrun | dd d p _ _ _ _ Hrun].
    + rewrite Hrun in Hres. discriminate.
    + rewrite Hrun in Hres. discriminate.
    + cbv zeta in Hrun. rewrite Hrun in Hres. cbn [result snd] in Hres.
      unfold after_run in Hres. rewrite Hm in Hres.
      destruct (graphrag w _) as [rc out err | e].
      * destruct (rc =? 0)%Z; injection Hres as <- <-; reflexivity.
      * destruct e; try discriminate. injection Hres as <- <-. reflexivity.
  - intros dd d p Hdd Hq Hd Hp.
    pose proof (ask_valid DATA_ROOT sys_executable w form Hdd Hq Hd Hp) as H.
    cbv zeta in H. rewrite H, Hm. cbn [trace fst].
    apply in_or_app. right. now left.
Qed.

Lemma ask_method_defaults_to_global_witness :
  form_get form_alpha (lit "method") = None
  /\ ask data_root python (mkworld listing_alpha engine_answers) form_alpha
     = ([EvRun (argv_of python (lit "/srv/graphrag/alpha_data") (lit "global")
                  (lit "What is X?"))],
        Ok (answer_page [(KStr (lit "alpha"), descriptor "alpha" "alpha_data")]
              (lit "Paris is the capital.") (lit "What is X?")
              (Some (lit "alpha")) (lit "global")))
  /\ method_of form_alpha = lit "global".
Proof.
  split; [ reflexivity | ]. split; [ reflexivity | ].
  apply (@ask_method_defaults_to_global data_root python
           (mkworld listing_alpha engine_answers) form_alpha).
  reflexivity.
Defined.

(** C10. When a descriptor's path text is absolute (it starts with a
    slash), joining it to [DATA_ROOT] gives that path itself, whatever
    [DATA_ROOT] is, and that is the path handed to the Query Invoker; every
    rooted path in normal form can be reached this way. *)
Theorem absolute_path_replaces_data_root
    (DATA_ROOT : path) (sys_executable : pystr) (w : world)
    (form : multidict) (dd : pydict) (d : pyval) (rest : pystr) :
  result (datasets_dict w) = Ok dd ->
  question_of form <> [] ->
  dict_get dd (form_key (ds_key_of form)) = Some d ->
  getitem_str d (lit "path") = Ok (PyStr (47%N :: rest)) ->
  is_absolute (Path (47%N :: rest)) = true
  /\ path_truediv DATA_ROOT (PyStr (47%N :: rest)) = Ok (Path (47%N :: rest))
  /\ In (EvRun (argv_of sys_executable (path_str (Path (47%N :: rest)))
                  (method_of form) (question_of form)))
        (trace (ask DATA_ROOT sys_executable w form))
  /\ (forall cs, Forall component cs ->
        path_truediv DATA_ROOT (PyStr (path_str (mkpath sep cs)))
        = Ok (mkpath sep cs)).
Proof.
  intros Hdd Hq Hd Hp.
  pose proof (Pathlib.Path_rooted rest) as Habs.
  split; [ exact Habs | ]. split; [ | split ].
  - cbn [path_truediv]. now rewrite Pathlib.joinpath_absolute.
  - pose proof (ask_valid DATA_ROOT sys_executable w form Hdd Hq Hd Hp) as H.
    cbv zeta in H. rewrite H, Pathlib.joinpath_absolute by exact Habs.
    cbn [trace fst]. apply in_or_app. right. now left.
  - intros cs Hcs. cbn [path_truediv].
    rewrite Pathlib.Path_str_rooted by exact Hcs.
    now rewrite Pathlib.joinpath_absolute.
Qed.

Lemma absolute_path_replaces_data_root_witness :
  path_truediv data_root (PyStr (lit "/etc/ssl")) = Ok (Path (lit "/etc/ssl"))
  /\ In (EvRun (argv_of python (lit "/etc/ssl") (lit "local")
                  (lit "What is X?")))
        (trace (ask data_root python (mkworld listing_etc engine_answers)
                  form_alpha_local)).
Proof.
  destruct (@absolute_path_replaces_data_root data_root python
              (mkworld listing_etc engine_answers) form_alpha_local
              [(KStr (lit "alpha"), descriptor "alpha" "/etc/ssl")]
              (descriptor "alpha" "/etc/ssl") (lit "etc/ssl"))
    as (_ & Hjoin & Hrun & _).
  - reflexivity.
  - discriminate.
  - reflexivity.
  - reflexivity.
  - split; [ exact Hjoin | exact Hrun ].
Defined.

(** * Further properties of the handlers *)

(** ** Auxiliary facts *)

Lemma datasets_dict_trace_prints (w : world) (ev : event) :
  In ev (trace (datasets_dict w)) -> exists line, ev = EvPrint line.
Proof. rewrite datasets_dict_trace. apply load_datasets_trace_prints. Qed.

Lemma filter_prints (f : event -> bool) (t : list event) :
  (forall line, f (EvPrint line) = false) ->
  (forall ev, In ev t -> exists line, ev = EvPrint line) ->
  filter f t = [].
Proof.
  intros Hf. induction t as [ | ev t IH]; intros H; cbn.
  - reflexivity.
  - destruct (H ev (or_introl eq_refl)) as [line ->]. rewrite Hf.
    apply IH. intros ev' Hin. apply H. now right.
Qed.

Lemma datasets_dict_ok_inv (w : world) (dd : pydict) :
  result (datasets_dict w) = Ok dd ->
  exists loaded ds,
    result (load_datasets w) = Ok loaded
    /\ py_iter loaded = Ok ds
    /\ index_by_key ds [] = Ok dd.
Proof.
  rewrite datasets_dict_result.
  destruct (result (load_datasets w)) as [loaded | e]; [ | discriminate ].
  destruct (py_iter loaded) as [ds | e] eqn:Hiter; [ | discriminate ].
  intros H. exists loaded, ds. auto.
Qed.

(** [lstrip] only removes a prefix. *)
Lemma lstrip_suffix (s : pystr) : exists pre, s = pre ++ lstrip s.
Proof.
  induction s as [ | c s [pre IH]]; cbn.
  - now exists [].
  - destruct (isspace c).
    + exists (c :: pre). cbn. now rewrite <- IH.
    + now exists [].
Qed.

Lemma strip_last (s pre : pystr) (c : N) :
  strip s = pre ++ [c] -> isspace c = false.
Proof.
  unfold strip, rstrip. intros H.
  apply (f_equal (@rev N)) in H. rewrite rev_involutive, rev_app_distr in H.
  cbn in H. eapply lstrip_head. exact H.
Qed.

Lemma strip_head (s rest : pystr) (c : N) :
  strip s = c :: rest -> isspace c = false.
Proof.
  unfold strip, rstrip. intros H.
  destruct (lstrip_suffix (rev (lstrip s))) as [pre Hpre].
  apply (f_equal (@rev N)) in H. rewrite rev_involutive in H. cbn in H.
  rewrite H in Hpre.
  apply (f_equal (@rev N)) in Hpre.
  rewrite rev_involutive, !rev_app_distr, rev_involutive in Hpre. cbn in Hpre.
  eapply lstrip_head. exact Hpre.
Qed.

(** Only text hashes to a text key, and only [None] to the key of [None]. *)
Lemma dyadic_num (z e : Z) : exists m e', dyadic z e = KNum m e'.
Proof.
  destruct z as [ | p | p]; cbn; eauto;
    destruct (odd_part p e) as [q e']; eauto.
Qed.

Lemma py_key_form (v : pyval) (k : option pystr) :
  py_key v = Some (form_key k) -> v = form_obj k.
Proof.
  destruct v as [ | b | z | f | s | l | d]; cbn.
  - destruct k; cbn; congruence.
  - destruct (dyadic_num (Z.b2z b) 0) as (m & e' & ->). destruct k; discriminate.
  - destruct (dyadic_num z 0) as (m & e' & ->). destruct k; discriminate.
  - destruct f as [s | s | | s m e]; try (destruct k; discriminate).
    destruct (dyadic_num (if s then Zneg m else Zpos m) e) as (m' & e' & ->).
    destruct k; discriminate.
  - destruct k; cbn; congruence.
  - discriminate.
  - discriminate.
Qed.

(** ** The lookup and the listing it is built from *)

Lemma index_by_key_get_inv (ds : list pyval) (acc dd : pydict)
    (hk : hkey) (d : pyval) :
  index_by_key ds acc = Ok dd ->
  dict_get dd hk = Some d ->
  (In d ds /\ key_of d = Some hk) \/ dict_get acc hk = Some d.
Proof.
  revert acc. induction ds as [ | d' ds IH]; intros acc H Hget.
  - cbn in H. right. congruence.
  - apply index_by_key_ok_inv in H. destruct H as (hk' & Hk' & H).
    destruct (IH _ H Hget) as [[Hin Hk] | Hacc].
    + left. split; [ now right | exact Hk ].
    + rewrite Dict.get_set in Hacc.
      destruct (hkey_eq_dec hk' hk) as [-> | Hne].
      * left. split; [ left; congruence | congruence ].
      * now right.
Qed.

Lemma index_by_key_mem_mono (ds : list pyval) (acc dd : pydict) (hk : hkey) :
  index_by_key ds acc = Ok dd ->
  dict_mem acc hk = true -> dict_mem dd hk = true.
Proof.
  revert acc. induction ds as [ | d' ds IH]; intros acc H Hmem.
  - cbn in H. congruence.
  - apply index_by_key_ok_inv in H. destruct H as (hk' & Hk' & H).
    apply (IH _ H). unfold dict_mem in *. rewrite Dict.get_set.
    destruct (hkey_eq_dec hk' hk); [ reflexivity | exact Hmem ].
Qed.

Lemma index_by_key_mem_intro (ds : list pyval) (acc dd : pydict)
    (hk : hkey) (d : pyval) :
  index_by_key ds acc = Ok dd ->
  In d ds -> key_of d = Some hk -> dict_mem dd hk = true.
Proof.
  revert acc. induction ds as [ | d' ds IH]; intros acc H Hin Hk.
  - destruct Hin.
  - apply index_by_key_ok_inv in H. destruct H as (hk' & Hk' & H).
    destruct Hin as [-> | Hin].
    + eapply index_by_key_mem_mono; [ exact H | ].
      assert (hk' = hk) by congruence. subst hk'.
      unfold dict_mem. now rewrite Dict.get_set_same.
    + eapply IH; eauto.
Qed.

Lemma index_by_key_total (ds : list pyval) (acc : pydict) :
  Forall (fun d => key_of d <> None) ds ->
  exists dd, index_by_key ds acc = Ok dd.
Proof.
  intros H. revert acc. induction H as [ | d ds Hd _ IH]; intros acc.
  - now exists acc.
  - destruct (key_of d) as [hk | ] eqn:Hk; [ | now destruct Hd ].
    rewrite key_of_step with (hk := hk) by assumption. apply IH.
Qed.

Lemma index_by_key_keyed (ds : list pyval) (acc dd : pydict) :
  index_by_key ds acc = Ok dd ->
  Forall (fun d => key_of d <> None) ds.
Proof.
  revert acc. induction ds as [ | d ds IH]; intros acc H.
  - constructor.
  - apply index_by_key_ok_inv in H. destruct H as (hk & Hk & H).
    constructor; [ congruence | eapply IH; eauto ].
Qed.

Lemma index_by_key_unkeyed (d : pyval) (ds : list pyval) (acc : pydict) :
  key_of d = None -> index_by_key (d :: ds) acc = Raise (key_error d).
Proof.
  unfold key_of, key_error. cbn.
  destruct (getitem_str d (lit "key")) as [k | e]; [ | reflexivity ].
  intros Hk. now rewrite Hk.
Qed.



(** ** Relative paths *)

Lemma filter_components (l : list pystr) :
  Forall component l ->
  filter (fun x => negb (pystr_eqb x []) && negb (pystr_eqb x (lit "."))) l = l.
Proof.
  intros Hl. induction Hl as [ | x l (Hx1 & Hx2 & _) _ IH]; cbn.
  - reflexivity.
  - apply pystr_eqb_neq in Hx1, Hx2. rewrite Hx1, Hx2. cbn. now rewrite IH.
Qed.

Lemma join_head_not_sep (x : pystr) (cs : list pystr) :
  component x -> pystr_eqb (firstn 1 (join_with sep (x :: cs))) sep = false.
Proof.
  intros (Hx1 & _ & Hx3). apply pystr_eqb_neq. rewrite Pathlib.sep_eq.
  destruct x as [ | c x]; [ now destruct Hx1 | ].
  assert (c <> 47%N) by (intros ->; apply Hx3; now left).
  destruct cs; cbn; congruence.
Qed.

(** Components joined by slashes parse back to a relative path with those
    components; [".."] is a component like any other. *)
Lemma Path_join_relative (cs : list pystr) :
  cs <> [] -> Forall component cs ->
  Path (join_with sep cs) = mkpath [] cs.
Proof.
  intros Hne Hcs. destruct cs as [ | x cs]; [ now destruct Hne | ].
  unfold Path, splitroot.
  rewrite join_head_not_sep by (now inversion Hcs). cbn [negb].
  rewrite Pathlib.split_on_join.
  - now rewrite filter_components.
  - discriminate.
  - eapply Forall_impl; [ | exact Hcs ]. now intros c (_ & _ & Hc).
Qed.

(** ** Properties *)

(** X1. [GET /] prints at most diagnostics: it starts no subprocess and
    flashes nothing. It raises exactly when the listing file exists but
    cannot be opened or decoded, or is JSON text on which [json.load]
    raises; otherwise it renders [index.html] with what [load_datasets]
    returned, the empty list for a missing or malformed file. *)
Theorem index_renders_or_raises (w : world) :
  (forall ev, In ev (trace (index w)) -> exists line, ev = EvPrint line)
  /\ result (index w)
     = match listing w with
       | Missing | Malformed _ =>
           Ok (Rendered (lit "index.html") [("datasets"%string, PyList [])])
       | WellFormed v =>
           Ok (Rendered (lit "index.html") [("datasets"%string, v)])
       | Unreadable => Raise OSError
       | Undecodable => Raise UnicodeDecodeError
       | Unloadable IntegerTooLong => Raise ValueError
       | Unloadable NestingTooDeep => Raise RecursionError
       end.
Proof.
  unfold index. rewrite (eta_M (load_datasets w)). split.
  - intros ev Hin. apply (load_datasets_trace_prints w).
    destruct (result (load_datasets w)); cbn in Hin.
    + now rewrite app_nil_r in Hin.
    + exact Hin.
  - rewrite load_datasets_result.
    destruct (listing w) as [ | | | msg | v | why]; try destruct why;
      reflexivity.
Qed.

(** X2. A POST has at most one effect besides printing: it starts one
    subprocess, or flashes one warning, or does neither, never both and
    never twice. *)
Theorem ask_one_effect_at_most
    (DATA_ROOT : path) (sys_executable : pystr) (w : world)
    (form : multidict) :
  List.length (filter is_run (trace (ask DATA_ROOT sys_executable w form)))
  + List.length (filter is_flash (trace (ask DATA_ROOT sys_executable w form)))
  <= 1.
Proof.
  assert (Hrun : filter is_run (trace (datasets_dict w)) = [])
    by (apply filter_prints; [ reflexivity | apply datasets_dict_trace_prints ]).
  assert (Hflash : filter is_flash (trace (datasets_dict w)) = [])
    by (apply filter_prints; [ reflexivity | apply datasets_dict_trace_prints ]).
  destruct (ask_cases DATA_ROOT sys_executable w form)
    as [e H | dd _ _ H | dd d p _ _ _ _ H]; cbv zeta in H; rewrite H;
    cbn [trace fst]; rewrite ?filter_app, ?Hrun, ?Hflash; cbn; lia.
Qed.

(** X3. What a POST answers goes with what it did: it redirects exactly
    when it flashed the warning, a redirect goes to the URL of [index]
    under the request's script name and comes with no subprocess, and a
    page is rendered only after a subprocess was started. *)
Theorem ask_response_matches_effects
    (DATA_ROOT : path) (sys_executable : pystr) (w : world)
    (form : multidict) :
  ((exists message category,
      In (EvFlash message category)
         (trace (ask DATA_ROOT sys_executable w form)))
   <-> exists location,
         result (ask DATA_ROOT sys_executable w form) = Ok (Redirect location))
  /\ (forall location,
        result (ask DATA_ROOT sys_executable w form) = Ok (Redirect location) ->
        location = url_for_index (script_name w)
        /\ no_subprocess (trace (ask DATA_ROOT sys_executable w form)))
  /\ (forall template ctx,
        result (ask DATA_ROOT sys_executable w form)
          = Ok (Rendered template ctx) ->
        exists argv,
          In (EvRun argv) (trace (ask DATA_ROOT sys_executable w form))).
Proof.
  assert (Hnoflash : forall t m c,
            In (EvFlash m c) (trace (datasets_dict w) ++ t) -> In (EvFlash m c) t).
  { intros t m c Hin. apply in_app_or in Hin. destruct Hin as [Hin | Hin]; auto.
    apply datasets_dict_trace_prints in Hin. destruct Hin as [line Hin].
    discriminate. }
  assert (Hnorun : forall t argv,
            In (EvRun argv) (trace (datasets_dict w) ++ t) -> In (EvRun argv) t).
  { intros t argv Hin. apply in_app_or in Hin. destruct Hin as [Hin | Hin]; auto.
    now apply datasets_dict_no_subprocess in Hin. }
  destruct (ask_cases DATA_ROOT sys_executable w form)
    as [e H | dd _ _ H | dd d p _ _ _ _ H]; cbv zeta in H; rewrite H;
    cbn [trace result fst snd].
  - split; [ split | split ].
    + intros (m & c & Hin). rewrite <- (app_nil_r (trace _)) in Hin.
      now apply Hnoflash in Hin.
    + intros [location E]. discriminate.
    + discriminate.
    + discriminate.
  - split; [ split | split ].
    + intros _. eexists. reflexivity.
    + intros _. eexists _, _. apply in_or_app. right. now left.
    + intros location E. injection E as <-. split; [ reflexivity | ].
      intros argv Hin. apply Hnorun in Hin. destruct Hin as [Hin | []].
      discriminate.
    + discriminate.
  - split; [ split | split ].
    + intros (m & c & Hin). apply Hnoflash in Hin.
      destruct Hin as [Hin | []]. discriminate.
    + intros [location E]. exfalso. unfold after_run in E.
      destruct (graphrag w _) as [rc out err | e];
        [ destruct (rc =? 0)%Z | destruct e ]; discriminate.
    + intros location E. exfalso. unfold after_run in E.
      destruct (graphrag w _) as [rc out err | e];
        [ destruct (rc =? 0)%Z | destruct e ]; discriminate.
    + intros _ _ _. eexists. apply in_or_app. right. now left.
Qed.

(** X4. When a POST reaches the Query Invoker and the external process
    exits with code zero and standard output [out], the handler renders
    [index.html] with the registry's entries, the trimmed output as the
    answer, the trimmed question, the submitted dataset key and the
    method. *)
Theorem successful_query_page
    (DATA_ROOT : path) (sys_executable : pystr) (w : world)
    (form : multidict) (argv : list pystr) (out err : pystr) :
  In (EvRun argv) (trace (ask DATA_ROOT sys_executable w form)) ->
  graphrag w argv = Exited 0 out err ->
  exists dd,
    result (datasets_dict w) = Ok dd
    /\ result (ask DATA_ROOT sys_executable w form)
       = Ok (Rendered (lit "index.html")
               [ ("datasets"%string, PyList (dict_values dd));
                 ("answer"%string, PyStr (strip out));
                 ("ask"%string,
                  PyStr (strip (form_get_default form (lit "question") [])));
                 ("chosen"%string, form_obj (form_get form (lit "dataset")));
                 ("method"%string,
                  PyStr (form_get_default form (lit "method") (lit "global"))) ]).
Proof.
  intros Hin Hrun. apply ask_run_inv in Hin.
  destruct Hin as (dd & d & p & Hdd & _ & _ & _ & _ & Hres).
  exists dd. split; [ exact Hdd | ].
  rewrite Hres, Hrun. reflexivity.
Qed.

Lemma successful_query_page_witness :
  exists dd,
    result (datasets_dict (mkworld listing_alpha engine_answers)) = Ok dd
    /\ result (ask data_root python (mkworld listing_alpha engine_answers)
                 form_alpha_local)
       = Ok (Rendered (lit "index.html")
               [ ("datasets"%string, PyList (dict_values dd));
                 ("answer"%string, PyStr (lit "Paris is the capital."));
                 ("ask"%string, PyStr (lit "What is X?"));
                 ("chosen"%string, PyStr (lit "alpha"));
                 ("method"%string, PyStr (lit "local")) ]).
Proof.
  apply (@successful_query_page data_root python
           (mkworld listing_alpha engine_answers) form_alpha_local
           (argv_of python (lit "/srv/graphrag/alpha_data") (lit "local")
              (lit "What is X?"))
           (lit "  Paris is the capital.  " ++ [10%N]) []).
  - vm_compute. left. reflexivity.
  - reflexivity.
Defined.

(** X5. Of the errors the subprocess call can raise, only
    [CalledProcessError] becomes a page, with the failure text made from the
    standard error it carries; any other error raised by the call leaves
    the handler as it is. *)
Theorem ask_other_errors_propagate
    (DATA_ROOT : path) (sys_executable : pystr) (w : world)
    (form : multidict) (argv : list pystr) (e : exn) :
  In (EvRun argv) (trace (ask DATA_ROOT sys_executable w form)) ->
  graphrag w argv = Failed e ->
  match e with
  | CalledProcessError _ _ _ stderr =>
      exists dd,
        result (ask DATA_ROOT sys_executable w form)
        = Ok (Rendered (lit "index.html")
                (page_context dd (failure_text stderr) form))
  | _ => result (ask DATA_ROOT sys_executable w form) = Raise e
  end.
Proof.
  intros Hin Hrun. apply ask_run_inv in Hin.
  destruct Hin as (dd & d & p & _ & _ & _ & _ & _ & Hres).
  rewrite Hres, Hrun. destruct e; try reflexivity.
  exists dd. reflexivity.
Qed.

Lemma ask_other_errors_propagate_witness :
  ask data_root python (mkworld listing_alpha engine_unavailable)
    form_alpha_local
  = ([EvRun (argv_of python (lit "/srv/graphrag/alpha_data") (lit "local")
               (lit "What is X?"))],
     Raise OSError)
  /\ result (ask data_root python (mkworld listing_alpha engine_unavailable)
               form_alpha_local) = Raise OSError.
Proof.
  split; [ reflexivity | ].
  apply (@ask_other_errors_propagate data_root python
           (mkworld listing_alpha engine_unavailable) form_alpha_local
           (argv_of python (lit "/srv/graphrag/alpha_data") (lit "local")
              (lit "What is X?"))
           OSError).
  - vm_compute. left. reflexivity.
  - reflexivity.
Defined.

(** X6. The question handed to the external engine is the submitted
    question field, trimmed; it is never empty and neither starts nor ends
    with a whitespace character. *)
Theorem engine_question_is_trimmed
    (DATA_ROOT : path) (sys_executable : pystr) (w : world)
    (form : multidict) (argv : list pystr) :
  In (EvRun argv) (trace (ask DATA_ROOT sys_executable w form)) ->
  exists raw,
    form_get form (lit "question") = Some raw
    /\ nth 9 argv [] = strip raw
    /\ nth 8 argv [] = lit "--query"
    /\ strip raw <> []
    /\ (forall c rest, strip raw = c :: rest -> isspace c = false)
    /\ (forall pre c, strip raw = pre ++ [c] -> isspace c = false).
Proof.
  intros Hin. apply ask_run_inv in Hin.
  destruct Hin as (dd & d & p & _ & Hq & _ & _ & -> & _).
  unfold question_of, form_get_default in *.
  destruct (form_get form (lit "question")) as [raw | ].
  - exists raw. repeat split; auto.
    + intros c rest. apply strip_head.
    + intros pre c. apply strip_last.
  - now destruct Hq.
Qed.

Lemma engine_question_is_trimmed_witness :
  exists raw,
    form_get form_alpha (lit "question") = Some raw
    /\ raw = lit " What is X? "
    /\ strip raw = lit "What is X?".
Proof.
  destruct (@engine_question_is_trimmed data_root python
              (mkworld listing_alpha engine_answers) form_alpha
              (argv_of python (lit "/srv/graphrag/alpha_data") (lit "global")
                 (lit "What is X?")))
    as (raw & Hraw & _).
  - vm_compute. left. reflexivity.
  - exists raw. split; [ exact Hraw | ].
    assert (E : raw = lit " What is X? ")
      by (cbn in Hraw; injection Hraw as <-; reflexivity).
    split; [ exact E | ]. rewrite E. reflexivity.
Defined.

(** X7. The lookup built from a listing reflects it: a key is in the
    lookup exactly when some entry of the listing is filed under it, and
    the entry the lookup holds for a key is an entry of the listing filed
    under that key. *)
Theorem lookup_reflects_listing (ds : list pyval) (dd : pydict) :
  index_by_key ds [] = Ok dd ->
  (forall hk,
     dict_mem dd hk = true <-> exists d, In d ds /\ key_of d = Some hk)
  /\ (forall hk d,
        dict_get dd hk = Some d -> In d ds /\ key_of d = Some hk).
Proof.
  intros H.
  assert (Hget : forall hk d,
            dict_get dd hk = Some d -> In d ds /\ key_of d = Some hk).
  { intros hk d Hd.
    destruct (index_by_key_get_inv ds [] hk H Hd) as [Hin | Habs];
      [ exact Hin | discriminate ]. }
  split; [ | exact Hget ].
  intros hk. split.
  - intros Hmem. apply dict_mem_get in Hmem. destruct Hmem as [d Hd].
    exists d. now apply Hget.
  - intros (d & Hin & Hk). eapply index_by_key_mem_intro; eauto.
Qed.

Lemma lookup_reflects_listing_witness :
  dict_mem [ (KStr (lit "alpha"), descriptor "alpha" "new_data");
             (KStr (lit "beta"), descriptor "beta" "beta_data") ]
    (KStr (lit "beta")) = true
  <-> exists d,
        In d [ descriptor "alpha" "old_data"; descriptor "beta" "beta_data";
               descriptor "alpha" "new_data" ]
        /\ key_of d = Some (KStr (lit "beta")).
Proof.
  apply (@lookup_reflects_listing
           [ descriptor "alpha" "old_data"; descriptor "beta" "beta_data";
             descriptor "alpha" "new_data" ]
           [ (KStr (lit "alpha"), descriptor "alpha" "new_data");
             (KStr (lit "beta"), descriptor "beta" "beta_data") ]).
  reflexivity.
Defined.

(** X8. The lookup can be built exactly when every entry of the listing
    is an object with a hashable [key]; the shape of the rest of an entry,
    its [path] included, is not looked at. *)
Theorem lookup_builds_iff_keyed (ds : list pyval) :
  (exists dd, index_by_key ds [] = Ok dd)
  <-> Forall (fun d => exists k hk,
                getitem_str d (lit "key") = Ok k /\ py_key k = Some hk) ds.
Proof.
  assert (Hkeyed : forall d,
            key_of d <> None
            <-> exists k hk, getitem_str d (lit "key") = Ok k
                             /\ py_key k = Some hk).
  { intros d. unfold key_of.
    destruct (getitem_str d (lit "key")) as [k | e].
    - destruct (py_key k) as [hk | ] eqn:Hk; split.
      + eauto.
      + discriminate.
      + intros Hn. now destruct Hn.
      + intros (k' & hk & E & Hk'). injection E as <-. congruence.
    - split; [ intros Hn; now destruct Hn | intros (k & hk & E & _); discriminate ]. }
  split.
  - intros [dd H]. apply index_by_key_keyed in H.
    eapply Forall_impl; [ | exact H ]. intros d. apply Hkeyed.
  - intros H. apply index_by_key_total.
    eapply Forall_impl; [ | exact H ]. intros d. apply Hkeyed.
Qed.

(** X9. When the entries before [d] all have hashable keys and [d] has
    none, building the lookup raises the error of [d]: the [KeyError] of a
    missing [key], or a [TypeError] for an entry that is no object or whose
    key is a list or an object. Entries after [d] are not looked at. *)
Theorem lookup_fails_at_first_bad_entry
    (l1 l2 : list pyval) (d : pyval) :
  Forall (fun d' => key_of d' <> None) l1 ->
  key_of d = None ->
  index_by_key (l1 ++ d :: l2) [] = Raise (key_error d)
  /\ (forall fields,
        d = PyDict fields -> assoc (lit "key") fields = None ->
        key_error d = KeyError (PyStr (lit "key")))
  /\ (forall fields k,
        d = PyDict fields -> assoc (lit "key") fields = Some k ->
        key_error d = TypeError)
  /\ ((forall fields, d <> PyDict fields) -> key_error d = TypeError).
Proof.
  intros Hl1 Hd. split; [ | split; [ | split ] ].
  - rewrite index_by_key_app.
    destruct (index_by_key_total [] Hl1) as [a ->].
    now apply index_by_key_unkeyed.
  - intros fields -> Hnone. unfold key_error. cbn. now rewrite Hnone.
  - intros fields k -> Hsome. unfold key_error. cbn. now rewrite Hsome.
  - intros Hnot. unfold key_error.
    destruct d; try reflexivity. now destruct (Hnot d).
Qed.

Lemma lookup_fails_at_first_bad_entry_witness :
  index_by_key
    ([descriptor "alpha" "alpha_data"]
       ++ PyDict [(lit "path", PyStr (lit "beta_data"))]
       :: [PyInt 3]) []
  = Raise (KeyError (PyStr (lit "key"))).
Proof.
  apply (@lookup_fails_at_first_bad_entry
           [descriptor "alpha" "alpha_data"] [PyInt 3]
           (PyDict [(lit "path", PyStr (lit "beta_data"))])).
  - constructor; [ discriminate | constructor ].
  - reflexivity.
Defined.



(** X11. When a descriptor's path text is made of components joined by
    slashes and does not start with one, the dataset path handed to the
    Query Invoker is [DATA_ROOT] extended by those components. A [".."]
    component is kept as it is, so such a path can point above
    [DATA_ROOT]. *)
Theorem relative_path_extends_data_root
    (DATA_ROOT : path) (sys_executable : pystr) (w : world)
    (form : multidict) (dd : pydict) (d : pyval) (cs : list pystr) :
  cs <> [] ->
  Forall component cs ->
  result (datasets_dict w) = Ok dd ->
  question_of form <> [] ->
  dict_get dd (form_key (ds_key_of form)) = Some d ->
  getitem_str d (lit "path") = Ok (PyStr (join_with sep cs)) ->
  path_truediv DATA_ROOT (PyStr (join_with sep cs))
    = Ok (mkpath (root DATA_ROOT) (parts DATA_ROOT ++ cs))
  /\ In (EvRun (argv_of sys_executable
                  (path_str (mkpath (root DATA_ROOT) (parts DATA_ROOT ++ cs)))
                  (method_of form) (question_of form)))
        (trace (ask DATA_ROOT sys_executable w form)).
Proof.
  intros Hne Hcs Hdd Hq Hd Hp.
  assert (E : joinpath DATA_ROOT (Path (join_with sep cs))
              = mkpath (root DATA_ROOT) (parts DATA_ROOT ++ cs)).
  { rewrite Path_join_relative by assumption. reflexivity. }
  split.
  - cbn [path_truediv]. now rewrite E.
  - pose proof (ask_valid DATA_ROOT sys_executable w form Hdd Hq Hd Hp) as H.
    cbv zeta in H. rewrite H, E. cbn [trace fst].
    apply in_or_app. right. now left.
Qed.

Lemma relative_path_extends_data_root_witness :
  path_truediv data_root (PyStr (lit "../secrets"))
    = Ok (mkpath (lit "/") [lit "srv"; lit "graphrag"; lit ".."; lit "secrets"])
  /\ In (EvRun (argv_of python (lit "/srv/graphrag/../secrets") (lit "local")
                  (lit "What is X?")))
        (trace (ask data_root python (mkworld listing_dotdot engine_answers)
                  form_alpha_local)).
Proof.
  apply (@relative_path_extends_data_root data_root python
           (mkworld listing_dotdot engine_answers) form_alpha_local
           [(KStr (lit "alpha"), descriptor "alpha" "../secrets")]
           (descriptor "alpha" "../secrets") [lit ".."; lit "secrets"]).
  - discriminate.
  - repeat constructor; try discriminate; vm_compute; intuition discriminate.
  - reflexivity.
  - discriminate.
  - reflexivity.
  - reflexivity.
Defined.

(** X12. The answer shown after a failed query is bounded: it has 26
    characters around at most 500 characters of standard error, so never
    more than 526, however much the external process wrote. *)
Theorem failure_answer_is_bounded
    (DATA_ROOT : path) (sys_executable : pystr) (w : world)
    (form : multidict) (argv : list pystr) (rc : Z) (out s : pystr) :
  In (EvRun argv) (trace (ask DATA_ROOT sys_executable w form)) ->
  graphrag w argv = Exited rc out s ->
  rc <> 0%Z ->
  exists template ctx answer,
    result (ask DATA_ROOT sys_executable w form) = Ok (Rendered template ctx)
    /\ kwarg "answer" ctx = Some (PyStr answer)
    /\ List.length answer = 26 + Nat.min 500 (List.length s)
    /\ List.length answer <= 526.
Proof.
  intros Hin Hrun Hrc. apply ask_run_inv in Hin.
  destruct Hin as (dd & d & p & _ & _ & _ & _ & _ & Hres).
  rewrite Hres, Hrun. unfold after_run.
  apply Z.eqb_neq in Hrc. rewrite Hrc.
  eexists _, _, (failure_text s). split; [ reflexivity | ].
  split; [ reflexivity | ].
  assert (E : List.length (failure_text s) = 26 + Nat.min 500 (List.length s)).
  { unfold failure_text, slice_to.
    rewrite !length_app, length_firstn.
    change (List.length (lit "GraphRAG query failed:")) with 22.
    change (List.length (lit "...")) with 3. cbn [List.length]. lia. }
  split; [ exact E | ]. rewrite E. lia.
Qed.

Lemma failure_answer_is_bounded_witness :
  List.length long_stderr = 600
  /\ exists template ctx answer,
       result (ask data_root python (mkworld listing_alpha engine_breaks)
                 form_alpha_local) = Ok (Rendered template ctx)
       /\ kwarg "answer" ctx = Some (PyStr answer)
       /\ List.length answer = 26 + Nat.min 500 (List.length long_stderr)
       /\ List.length answer <= 526.
Proof.
  split; [ reflexivity | ].
  apply (@failure_answer_is_bounded data_root python
           (mkworld listing_alpha engine_breaks) form_alpha_local
           (argv_of python (lit "/srv/graphrag/alpha_data") (lit "local")
              (lit "What is X?"))
           1%Z [] long_stderr).
  - vm_compute. left. reflexivity.
  - reflexivity.
  - discriminate.
Defined.

(** X13. The entry a request is served from has the submitted dataset
    value as its [key], as text: an entry whose key is a number or a
    boolean is never chosen, and a form without a dataset field can only
    choose an entry whose key is [null]. *)
Theorem chosen_entry_has_submitted_key
    (w : world) (form : multidict) (dd : pydict) (d : pyval) :
  result (datasets_dict w) = Ok dd ->
  dict_get dd (form_key (form_get form (lit "dataset"))) = Some d ->
  getitem_str d (lit "key") = Ok (form_obj (form_get form (lit "dataset"))).
Proof.
  intros Hdd Hd.
  apply datasets_dict_ok_inv in Hdd.
  destruct Hdd as (loaded & ds & _ & _ & Hidx).
  destruct (index_by_key_get_inv ds [] _ Hidx Hd) as [[_ Hk] | Habs];
    [ | discriminate ].
  unfold key_of in Hk.
  destruct (getitem_str d (lit "key")) as [k | e]; [ | discriminate ].
  now rewrite (py_key_form k _ Hk).
Qed.

Lemma chosen_entry_has_submitted_key_witness :
  dict_get [ (KStr (lit "alpha"), descriptor "alpha" "alpha_data");
             (KNum 7 0, PyDict [(lit "key", PyInt 7);
                                (lit "path", PyStr (lit "n"))]);
             (KStr (lit "beta"), descriptor "beta" "beta_data") ]
    (KStr (lit "alpha"))
  = Some (descriptor "alpha" "alpha_data")
  /\ getitem_str (descriptor "alpha" "alpha_data") (lit "key")
     = Ok (PyStr (lit "alpha")).
Proof.
  split; [ reflexivity | ].
  apply (@chosen_entry_has_submitted_key
           (mkworld listing_mixed engine_answers) form_alpha_local
           [ (KStr (lit "alpha"), descriptor "alpha" "alpha_data");
             (KNum 7 0, PyDict [(lit "key", PyInt 7);
                                (lit "path", PyStr (lit "n"))]);
             (KStr (lit "beta"), descriptor "beta" "beta_data") ]
           (descriptor "alpha" "alpha_data")).
  - reflexivity.
  - reflexivity.
Defined.

(** X14. With no registry to choose from, every POST is turned away: when
    the listing file is missing, malformed or an empty array, the handler
    prints the loader's diagnostic (if any), flashes the warning and
    redirects to the form page, whatever the form holds and wherever the
    application is mounted. *)
Theorem empty_registry_rejects_every_post
    (DATA_ROOT : path) (sys_executable : pystr)
    (g : list pystr -> proc_outcome) (mount : pystr) (form : multidict) :
  ask DATA_ROOT sys_executable (mkenv Missing g mount) form
    = ([EvPrint (lit "[load_datasets] listing.json not found"); warning],
       Ok (Redirect (url_for_index mount)))
  /\ (forall msg,
        ask DATA_ROOT sys_executable (mkenv (Malformed msg) g mount) form
        = ([EvPrint (lit "[load_datasets] Invalid JSON: " ++ msg); warning],
           Ok (Redirect (url_for_index mount))))
  /\ ask DATA_ROOT sys_executable (mkenv (WellFormed (PyList [])) g mount) form
     = ([warning], Ok (Redirect (url_for_index mount)))
  /\ url_for_index [] = lit "/"
  /\ ask DATA_ROOT sys_executable (mkworld Missing g) form
     = ([EvPrint (lit "[load_datasets] listing.json not found"); warning],
        Ok (Redirect (lit "/"))).
Proof.
  assert (H : forall w, result (datasets_dict w) = Ok [] ->
            ask DATA_ROOT sys_executable w form
            = (trace (datasets_dict w) ++ [warning],
               Ok (Redirect (url_for_index (script_name w))))).
  { intros w Hdd. apply ask_invalid with (dd := []); [ exact Hdd | ].
    right. reflexivity. }
  split; [ | split; [ | split; [ | split ] ] ].
  - now rewrite H.
  - intros msg. now rewrite H.
  - now rewrite H.
  - reflexivity.
  - now rewrite H.
Qed.


(** X16. A question made of whitespace only counts as no question: such
    a POST never starts a subprocess, and once the registry has loaded it is
    answered by the redirect, even when the dataset key is a good one. *)
Theorem whitespace_question_is_rejected
    (DATA_ROOT : path) (sys_executable : pystr) (w : world)
    (form : multidict) (raw : pystr) :
  form_get form (lit "question") = Some raw ->
  forallb isspace raw = true ->
  no_subprocess (trace (ask DATA_ROOT sys_executable w form))
  /\ (forall dd,
        result (datasets_dict w) = Ok dd ->
        ask DATA_ROOT sys_executable w form
        = (trace (datasets_dict w) ++ [warning],
           Ok (Redirect (url_for_index (script_name w))))).
Proof.
  intros Hraw Hws.
  assert (Hq : question_of form = []).
  { unfold question_of, form_get_default. rewrite Hraw.
    now apply strip_nil_iff. }
  split.
  - intros argv Hin. apply ask_run_inv in Hin.
    destruct Hin as (dd & d & p & _ & Hne & _). contradiction.
  - intros dd Hdd. apply ask_invalid with (dd := dd); auto.
Qed.

Lemma whitespace_question_is_rejected_witness :
  dict_mem [(KStr (lit "alpha"), descriptor "alpha" "alpha_data")]
    (form_key (ds_key_of form_spaces)) = true
  /\ ask data_root python (mkworld listing_alpha engine_answers) form_spaces
     = ([warning], Ok (Redirect (lit "/"))).
Proof.
  split; [ reflexivity | ].
  apply (proj2 (@whitespace_question_is_rejected data_root python
                  (mkworld listing_alpha engine_answers) form_spaces
                  [32%N; 9%N; 10%N; 160%N; 12288%N] eq_refl eq_refl)
           [(KStr (lit "alpha"), descriptor "alpha" "alpha_data")]).
  reflexivity.
Defined.

(** X17. The listing has to be an array. When it parses to anything else
    (an object, text, a number, [null]) every POST raises [TypeError] while
    the lookup is built, whatever the form holds; the only exceptions are
    the empty object and the empty text, which count as an empty listing. *)
Theorem non_array_listing_breaks_post
    (DATA_ROOT : path) (sys_executable : pystr) (w : world)
    (form : multidict) (v : pyval) :
  listing w = WellFormed v ->
  (forall l, v <> PyList l) ->
  v <> PyDict [] ->
  v <> PyStr [] ->
  ask DATA_ROOT sys_executable w form = ([], Raise TypeError).
Proof.
  intros Hl Hlist Hobj Htxt.
  assert (Hres : result (datasets_dict w) = Raise TypeError).
  { rewrite datasets_dict_result, load_datasets_result, Hl.
    destruct v as [ | b | z | f | s | l | d]; try reflexivity.
    - destruct s; [ now destruct Htxt | reflexivity ].
    - now destruct (Hlist l).
    - destruct d as [ | [k x] d]; [ now destruct Hobj | reflexivity ]. }
  rewrite (ask_registry_raises DATA_ROOT sys_executable w form Hres).
  rewrite datasets_dict_trace. unfold load_datasets. now rewrite Hl.
Qed.

Lemma non_array_listing_breaks_post_witness :
  ask data_root python (mkworld listing_object engine_answers) form_alpha_local
  = ([], Raise TypeError).
Proof.
  apply (@non_array_listing_breaks_post data_root python
           (mkworld listing_object engine_answers) form_alpha_local
           (PyDict [(lit "alpha",
                     PyDict [(lit "path", PyStr (lit "alpha_data"))])])).
  - reflexivity.
  - discriminate.
  - discriminate.
  - discriminate.
Defined.
